(** * Water-Quality-Predictor: a shallow embedding of
      [water_quality_prediction.py] and the properties of its
      feature encoding, its call chain and its error handling.

    The program is a Tk form.  One handler, [predict_water_quality],
    reads two entries, builds four features, sends them through a scaler,
    a model and an inverse scaler that were loaded from disk, and writes
    three labels.  The embedding keeps

    - Python floats as IEEE binary64 values ([spec_float] with
      [prec = 53], [emax = 1024]);
    - exceptions as values of an error monad over the object state,
      with the exit signals that no [except Exception] clause catches
      kept apart;
    - the attributes of [self] as optional record fields, unset until the
      code assigns them;
    - the dictionary [self.result_vars] as a [gmap];
    - every call that leaves the program (scaler, model, loaders, message
      boxes, label updates) as an entry of a log, in call order. *)

From Stdlib Require Import ZArith List String Ascii Bool Lia.
From Stdlib Require Import Floats.SpecFloat.
From Stdlib Require Import DecimalString DecimalPos DecimalN.
From Stdlib Require Import Reals Lra.
From Stdlib Require Import QArith Qreals.
From stdpp Require Import base option gmap strings.

Local Open Scope string_scope.
Local Open Scope Z_scope.

(** ** Binary64 arithmetic *)

Module Float64.

Definition prec : Z := 53.
Definition emax : Z := 1024.

(** A Python [float] (and a numpy [float64]). *)
Definition float : Type := spec_float.

Definition mul : float -> float -> float := SFmul prec emax.
Definition div : float -> float -> float := SFdiv prec emax.
Definition add : float -> float -> float := SFadd prec emax.
Definition sub : float -> float -> float := SFsub prec emax.

(** Conversion of a Python [int] operand of a float operation. *)
Definition of_int (z : Z) : float := binary_normalize prec emax z 0 false.

(** [np.pi], that is 0x1.921fb54442d18p+1. *)
Definition pi : float := S754_finite false 7074237752028440 (-51).

Definition nan : float := S754_nan.
Definition inf (negative : bool) : float := S754_infinity negative.

Definition is_finite (x : float) : bool :=
  match x with
  | S754_zero _ | S754_finite _ _ _ => true
  | S754_infinity _ | S754_nan => false
  end.

(** The binary64 value nearest to [m * 10 ^ e] (ties to even), with the
    sign [s]: the value of a decimal literal with digits [m] and decimal
    exponent [e]. *)
Definition of_decimal (s : bool) (m : Z) (e : Z) : float :=
  if 0 <=? e then
    match m * 10 ^ e with
    | Zpos p => binary_round prec emax s p 0
    | _ => S754_zero s
    end
  else
    let '(q, e', l) := SFdiv_core_binary prec emax m 0 (10 ^ (- e)) 0 in
    binary_round_aux prec emax s q e' l.

End Float64.

Import Float64.

(** ** Characters and decimal digits *)

Definition is_digit (c : ascii) : bool :=
  let n := nat_of_ascii c in ((48 <=? n) && (n <=? 57))%nat.

Definition digit_value (c : ascii) : Z := Z.of_nat (nat_of_ascii c) - 48.

(** Value of a run of decimal digits, most significant first. *)
Definition digits_value (ds : list ascii) : Z :=
  fold_left (fun acc c => 10 * acc + digit_value c) ds 0.

(** Longest prefix of digits, and the rest. *)
Fixpoint span_digits (s : list ascii) : list ascii * list ascii :=
  match s with
  | c :: s' =>
      if is_digit c then let '(ds, r) := span_digits s' in (c :: ds, r)
      else ([], s)
  | [] => ([], [])
  end.

(** ASCII lower case, for the case-insensitive words of [float()]. *)
Definition lower (c : ascii) : ascii :=
  let n := nat_of_ascii c in
  if ((65 <=? n) && (n <=? 90))%nat then ascii_of_nat (n + 32) else c.

(** The texts on which the two parsers are modelled. *)
Definition is_ascii (s : string) : bool :=
  forallb (fun c => (nat_of_ascii c <? 128)%nat) (list_ascii_of_string s).

(** ** The builtin [float(str)]

    The text of an entry is a string of bytes, and the two parsers are
    modelled on ASCII texts ([is_ascii]): there [None] means that Python
    raises [ValueError].  On a text with other characters the model
    answers [None], although Python also accepts the decimal digits and
    the white space of Unicode; a statement that draws a conclusion from
    [None] therefore carries the hypothesis [is_ascii].  [float()] strips
    white space on both sides, rejects
    misplaced underscores, then reads an optional sign followed by
    [inf], [infinity], [nan] (any case) or a decimal number with an
    optional exponent; the whole text has to be consumed.  [None] stands
    for the [ValueError] it raises. *)

Module PyFloat.

(** White space that [float] strips from an ASCII text: TAB, LF, VT, FF,
    CR and space. *)
Definition is_space (c : ascii) : bool :=
  let n := nat_of_ascii c in
  (((9 <=? n) && (n <=? 13)) || (n =? 32))%nat.

Fixpoint lstrip (s : list ascii) : list ascii :=
  match s with
  | c :: s' => if is_space c then lstrip s' else s
  | [] => []
  end.

Definition strip (s : list ascii) : list ascii :=
  rev (lstrip (rev (lstrip s))).

(** Underscores are accepted between two digits only, and dropped. *)
Fixpoint drop_underscores (prev : option ascii) (s : list ascii)
  : option (list ascii) :=
  match s with
  | [] =>
      match prev with
      | Some "_"%char => None
      | _ => Some []
      end
  | "_"%char :: s' =>
      match prev with
      | Some p =>
          if is_digit p then drop_underscores (Some "_"%char) s' else None
      | None => None
      end
  | c :: s' =>
      match prev with
      | Some "_"%char =>
          if is_digit c then
            option_map (cons c) (drop_underscores (Some c) s')
          else None
      | _ => option_map (cons c) (drop_underscores (Some c) s')
      end
  end.

Definition read_sign (s : list ascii) : bool * list ascii :=
  match s with
  | "-"%char :: s' => (true, s')
  | "+"%char :: s' => (false, s')
  | _ => (false, s)
  end.

(** The exponent part.  An [e] that no digit follows is not part of the
    number, so it is left in the rest. *)
Definition read_exponent (s : list ascii) : Z * list ascii :=
  match s with
  | c :: s' =>
      if (lower c =? "e")%char then
        let '(neg, s'') := read_sign s' in
        match span_digits s'' with
        | ([], _) => (0, s)
        | (ds, r) => ((if neg then - digits_value ds else digits_value ds), r)
        end
      else (0, s)
  | [] => (0, [])
  end.

(** [digits [. digits]] or [. digits], then the exponent: the mantissa
    as an integer, the decimal exponent, and the rest. *)
Definition read_number (s : list ascii) : option (Z * Z * list ascii) :=
  let '(ip, r1) := span_digits s in
  let '(fp, r2) :=
    match r1 with
    | "."%char :: r => span_digits r
    | _ => ([], r1)
    end in
  match ip, fp with
  | [], [] => None
  | _, _ =>
      let '(ex, r3) := read_exponent r2 in
      Some (digits_value (ip ++ fp)%list, ex - Z.of_nat (length fp), r3)
  end.

Definition read_word (s : list ascii) : option float :=
  match map lower s with
  | ["i"; "n"; "f"]%char => Some (inf false)
  | ["i"; "n"; "f"; "i"; "n"; "i"; "t"; "y"]%char => Some (inf false)
  | ["n"; "a"; "n"]%char => Some nan
  | _ => None
  end.

Definition parse (s : list ascii) : option float :=
  match drop_underscores None (strip s) with
  | None => None
  | Some body =>
      let '(neg, r) := read_sign body in
      match read_word r with
      | Some w => Some (if neg then SFopp w else w)
      | None =>
          match read_number r with
          | Some (m, e, []) => Some (of_decimal neg m e)
          | _ => None
          end
      end
  end.

End PyFloat.

(** [float(s)]: [None] when Python raises [ValueError]. *)
Definition py_float (s : string) : option float :=
  PyFloat.parse (list_ascii_of_string s).

(** ** [datetime.strptime(s, '%Y/%m')]

    The format compiles to the pattern
    [(\d\d\d\d)/(1[0-2]|0[1-9]|[1-9])]; the match starts at the first
    character and has to end at the last one, and the year has to be at
    least 1.  [None] stands for the [ValueError] raised otherwise.  The
    model is that of ASCII text, where [\d] is one of the ten digits 0
    to 9; Python's [\d] also matches the other decimal digits of
    Unicode, so a conclusion drawn from [None] carries the hypothesis
    [is_ascii]. *)

Record date : Type := mkDate { year : Z; month : Z }.

(** The three alternatives of the month group, tried in this order; each
    returns the month and what is left of the text. *)
Definition month_10_to_12 (s : list ascii) : option (Z * list ascii) :=
  match s with
  | c :: d :: r =>
      if (c =? "1")%char && is_digit d && (digit_value d <=? 2)
      then Some (10 + digit_value d, r) else None
  | _ => None
  end.

Definition month_01_to_09 (s : list ascii) : option (Z * list ascii) :=
  match s with
  | c :: d :: r =>
      if (c =? "0")%char && is_digit d && (1 <=? digit_value d)
      then Some (digit_value d, r) else None
  | _ => None
  end.

Definition month_1_to_9 (s : list ascii) : option (Z * list ascii) :=
  match s with
  | d :: r =>
      if is_digit d && (1 <=? digit_value d) then Some (digit_value d, r)
      else None
  | [] => None
  end.

Definition match_month (s : list ascii) : option (Z * list ascii) :=
  match month_10_to_12 s with
  | Some v => Some v
  | None =>
      match month_01_to_09 s with
      | Some v => Some v
      | None => month_1_to_9 s
      end
  end.

Definition strptime (s : string) : option date :=
  match list_ascii_of_string s with
  | y1 :: y2 :: y3 :: y4 :: "/"%char :: r =>
      if forallb is_digit [y1; y2; y3; y4] then
        match match_month r with
        | Some (m, []) =>
            let y := digits_value [y1; y2; y3; y4] in
            if 1 <=? y then Some (mkDate y m) else None
        | _ => None
        end
      else None
  | _ => None
  end.

(** ** The format specification [.2f]

    A finite binary64 value is the exact rational [m * 2 ^ e]; it is
    printed with two digits after the point, rounded to the nearest
    hundredth, ties to even.  The sign bit is printed also when the value
    rounds to zero.  A value that is not finite is printed as [nan],
    [inf] or [-inf]. *)

Definition round_half_even_div (n d : Z) : Z :=
  let q := n / d in
  match 2 * (n mod d) ?= d with
  | Lt => q
  | Gt => q + 1
  | Eq => if Z.even q then q else q + 1
  end.

(** [|x| * 100], rounded to an integer. *)
Definition hundredths (m : positive) (e : Z) : Z :=
  if 0 <=? e then Zpos m * 2 ^ e * 100
  else round_half_even_div (Zpos m * 100) (2 ^ (- e)).

Definition digit_char (d : Z) : ascii := ascii_of_nat (48 + Z.to_nat d).

Definition decimal (n : Z) : string :=
  NilZero.string_of_uint (N.to_uint (Z.to_N n)).

Definition fixed2 (h : Z) : string :=
  (decimal (h / 100) ++ "." ++
   String (digit_char (h / 10 mod 10)) (String (digit_char (h mod 10)) ""))%string.

Definition sign_text (s : bool) : string := if s then "-" else "".

Definition format_2f (x : float) : string :=
  match x with
  | S754_nan => "nan"
  | S754_infinity s => (sign_text s ++ "inf")%string
  | S754_zero s => (sign_text s ++ "0.00")%string
  | S754_finite s m e => (sign_text s ++ fixed2 (hundredths m e))%string
  end.

(** A number printed with exactly two decimal places: an optional minus
    sign, one digit or more, a point, two digits. *)
Definition two_decimals_chars (cs : list ascii) : bool :=
  let body :=
    match cs with
    | c :: r => if (c =? "-")%char then r else cs
    | [] => cs
    end in
  match span_digits body with
  | (_ :: _, ["."; d1; d2]%char) => is_digit d1 && is_digit d2
  | _ => false
  end.

Definition two_decimals (s : string) : bool :=
  two_decimals_chars (list_ascii_of_string s).

Fixpoint strip_prefix (p s : list ascii) : option (list ascii) :=
  match p, s with
  | [], _ => Some s
  | c :: p', d :: s' => if (c =? d)%char then strip_prefix p' s' else None
  | _ :: _, [] => None
  end.

Definition strip_suffix (u s : list ascii) : option (list ascii) :=
  option_map (@rev ascii) (strip_prefix (rev u) (rev s)).

(** [text] is [prefix], a number with two decimal places, then [unit]. *)
Definition shows_two_decimals (prefix unit text : string) : bool :=
  match strip_prefix (list_ascii_of_string prefix) (list_ascii_of_string text) with
  | Some r =>
      match strip_suffix (list_ascii_of_string unit) r with
      | Some num => two_decimals_chars num
      | None => false
      end
  | None => false
  end.

(** ** The arithmetic of the feature encoding

    Lines 124 to 129 of the program use a conversion from [int], a
    product, a quotient, the constant pi, sine and cosine.  The encoding
    is written once over this signature; it runs at binary64 and it is
    read at the real numbers where its geometry is stated. *)

Record Numeric (F : Type) : Type := mkNumeric {
  n_of_int : Z -> F;
  n_mul : F -> F -> F;
  n_div : F -> F -> F;
  n_pi : F;
  n_sin : F -> F;
  n_cos : F -> F
}.

Arguments n_of_int {F} _ _.
Arguments n_mul {F} _ _ _.
Arguments n_div {F} _ _ _.
Arguments n_pi {F} _.
Arguments n_sin {F} _ _.
Arguments n_cos {F} _ _.

Section Encoding.
Context {F : Type} (N : Numeric F).

(** [2 * np.pi * date.month / 12], evaluated from left to right. *)
Definition month_angle (m : Z) : F :=
  n_div N (n_mul N (n_mul N (n_of_int N 2) (n_pi N)) (n_of_int N m))
        (n_of_int N 12).

(** The right-hand sides of lines 124 and 125. *)
Definition sin_of_month (m : Z) : F := n_sin N (month_angle m).
Definition cos_of_month (m : Z) : F := n_cos N (month_angle m).
End Encoding.

(** The real numbers, for the meaning of the encoding. *)
Definition real_numeric : Numeric R :=
  mkNumeric R IZR Rmult Rdiv PI sin cos.

(** ** Exceptions

    A value of [exn] is an instance of Python's class [Exception]; the
    two [except] clauses of the program tell [ValueError] (with its
    subclasses) from the rest.  What derives from [BaseException] only
    is an [exit_signal]: no [except] clause of the program catches it. *)

Inductive exn : Type :=
| ValueError (msg : string)
| IndexError (msg : string)
| KeyError (msg : string)
| AttributeError (msg : string)
| OtherError (class msg : string).

(** [str(e)]. *)
Definition str (e : exn) : string :=
  match e with
  | ValueError m | IndexError m | KeyError m | AttributeError m
  | OtherError _ m => m
  end.

Definition is_ValueError (e : exn) : bool :=
  match e with ValueError _ => true | _ => false end.

(** What derives from [BaseException] and not from [Exception]. *)
Inductive exit_signal : Type :=
| KeyboardInterrupt
| SystemExit (code : Z)
| GeneratorExit.

(** The outcome of a call: a value, an exception, or an exit signal. *)
Inductive result (A : Type) : Type :=
| Ok (a : A)
| Raise (e : exn)
| Exit (x : exit_signal).

Arguments Ok {A} a.
Arguments Raise {A} e.
Arguments Exit {A} x.

(** ** The loaded artifacts and the world outside the program *)

(** A two-dimensional numpy array, as its rows. *)
Abbreviation array := (list (list float)) (only parsing).

Record Scaler : Type := mkScaler {
  transform : array -> result array;
  inverse_transform : array -> result array
}.

Record Model : Type := mkModel {
  predict : array -> result array
}.

(** What the program takes from its libraries and from the disk:
    [np.sin], [np.cos], [os.path.join], the directory of the script, and
    what [tf.keras.models.load_model] and [joblib.load] do on a path. *)
Record Libs : Type := mkLibs {
  np_sin : float -> float;
  np_cos : float -> float;
  os_path_join : string -> string -> string;
  base_path : string;
  load_model : string -> result Model;
  joblib_load : string -> result Scaler
}.

Definition float_numeric (L : Libs) : Numeric float :=
  mkNumeric float of_int mul div pi (np_sin L) (np_cos L).

(** Calls that leave the program, in the order they are made. *)
Inductive event : Type :=
| LoadModel (path : string)
| JoblibLoad (path : string)
| Showerror (title message : string)
| Transform (x : array)
| Predict (x : array)
| InverseTransform (x : array)
| SetVar (key text : string).

(** ** The object [self] *)

Record App : Type := mkApp {
  model : option Model;
  X_scaler : option Scaler;
  y_scaler : option Scaler;
  temp_entry : option string;     (* text of the temperature entry *)
  date_entry : option string;     (* text of the date entry *)
  result_vars : option (gmap string string);
  log : list event
}.

Definition new_app : App := mkApp None None None None None None [].

Definition set_model (v : Model) (a : App) : App :=
  mkApp (Some v) (X_scaler a) (y_scaler a) (temp_entry a) (date_entry a)
        (result_vars a) (log a).
Definition set_X_scaler (v : Scaler) (a : App) : App :=
  mkApp (model a) (Some v) (y_scaler a) (temp_entry a) (date_entry a)
        (result_vars a) (log a).
Definition set_y_scaler (v : Scaler) (a : App) : App :=
  mkApp (model a) (X_scaler a) (Some v) (temp_entry a) (date_entry a)
        (result_vars a) (log a).
Definition set_temp_entry (v : string) (a : App) : App :=
  mkApp (model a) (X_scaler a) (y_scaler a) (Some v) (date_entry a)
        (result_vars a) (log a).
Definition set_date_entry (v : string) (a : App) : App :=
  mkApp (model a) (X_scaler a) (y_scaler a) (temp_entry a) (Some v)
        (result_vars a) (log a).
Definition set_result_vars (v : gmap string string) (a : App) : App :=
  mkApp (model a) (X_scaler a) (y_scaler a) (temp_entry a) (date_entry a)
        (Some v) (log a).
Definition log_events (evs : list event) (a : App) : App :=
  mkApp (model a) (X_scaler a) (y_scaler a) (temp_entry a) (date_entry a)
        (result_vars a) (log a ++ evs).
Definition add_log (ev : event) (a : App) : App := log_events [ev] a.

(** ** Statements: state and exceptions

    A statement runs on the object and returns a value, raises an
    exception, or is left by an exit signal; in every case the object
    keeps what was done to it before. *)

Definition M (A : Type) : Type := App -> result A * App.

Definition ret {A} (a : A) : M A := fun app => (Ok a, app).

Definition raise {A} (e : exn) : M A := fun app => (Raise e, app).

Definition bind {A B} (m : M A) (k : A -> M B) : M B :=
  fun app =>
    match m app with
    | (Ok a, app') => k a app'
    | (Raise e, app') => (Raise e, app')
    | (Exit x, app') => (Exit x, app')
    end.

Notation "x <- m ;; k" := (bind m (fun x => k))
  (at level 100, m at next level, right associativity).
Notation "m ;;; k" := (bind m (fun _ => k))
  (at level 100, right associativity).

(** [try: body except ...: handler e], where the clauses catch
    instances of [Exception]: an exit signal passes through. *)
Definition try_except {A} (body : M A) (handler : exn -> M A) : M A :=
  fun app =>
    match body app with
    | (Ok a, app') => (Ok a, app')
    | (Raise e, app') => handler e app'
    | (Exit x, app') => (Exit x, app')
    end.

Definition lift {A} (r : result A) : M A := fun app => (r, app).

Definition emit (ev : event) : M unit := fun app => (Ok tt, add_log ev app).

(** Reading an attribute of [self]. *)
Definition getattr {A} (name : string) (field : App -> option A) : M A :=
  fun app =>
    match field app with
    | Some v => (Ok v, app)
    | None =>
        (Raise (AttributeError
                  ("'WaterQualityPredictionApp' object has no attribute '"
                   ++ name ++ "'")%string), app)
    end.

Definition setattr (set : App -> App) : M unit := fun app => (Ok tt, set app).

(** A call into a library: it is logged, then it returns or raises. *)
Definition call {A} (ev : event) (r : result A) : M A := emit ev ;;; lift r.

(** [messagebox.showerror(title, message)]. *)
Definition showerror (title message : string) : M unit :=
  emit (Showerror title message).

(** The message of the [ValueError] of [strptime] on a rejected text:
    the pattern does not match, or text is left after the match, or the
    year is 0. *)
Definition strptime_error (text : string) : string :=
  match list_ascii_of_string text with
  | y1 :: y2 :: y3 :: y4 :: c :: r =>
      if forallb is_digit [y1; y2; y3; y4] && (c =? "/")%char then
        match match_month r with
        | Some (_, []) => "year 0 is out of range"
        | Some (_, rest) =>
            ("unconverted data remains: " ++ string_of_list_ascii rest)%string
        | None =>
            ("time data '" ++ text ++ "' does not match format '%Y/%m'")%string
        end
      else ("time data '" ++ text ++ "' does not match format '%Y/%m'")%string
  | _ => ("time data '" ++ text ++ "' does not match format '%Y/%m'")%string
  end.

(** [float(text)] and [datetime.strptime(text, '%Y/%m')] as statements. *)
Definition float_of_str (text : string) : M float :=
  match py_float text with
  | Some v => ret v
  | None =>
      raise (ValueError ("could not convert string to float: '" ++ text ++ "'")%string)
  end.

Definition datetime_strptime (text : string) : M date :=
  match strptime text with
  | Some d => ret d
  | None => raise (ValueError (strptime_error text))
  end.

(** [a[i]] on one axis of an array. *)
Definition item {A} (a : list A) (i : nat) : M A :=
  match a !! i with
  | Some v => ret v
  | None =>
      raise (IndexError
               ("index " ++ decimal (Z.of_nat i) ++
                " is out of bounds for axis 0 with size " ++
                decimal (Z.of_nat (length a)))%string)
  end.

(** An f-string with one field, [f"...{prediction[0][j]:.2f}..."]; [f]
    puts the literal text around the printed number. *)
Definition format_item (prediction : array) (j : nat) (f : string -> string)
  : M string :=
  row <- item prediction 0 ;;
  p <- item row j ;;
  ret (f (format_2f p)).

(** [self.result_vars[key].set(text)]: the variable is looked up, then the
    argument is evaluated, then the variable is set. *)
Definition result_var_set (key : string) (arg : M string) : M unit :=
  vars <- getattr "result_vars" result_vars ;;
  match vars !! key with
  | None => raise (KeyError ("'" ++ key ++ "'")%string)
  | Some _ =>
      text <- arg ;;
      setattr (fun app =>
                 match result_vars app with
                 | Some vs => set_result_vars (<[key := text]> vs) app
                 | None => app
                 end) ;;;
      emit (SetVar key text)
  end.

Section Program.
Variable L : Libs.

(** *** [load_model_and_scalers] (lines 24 to 42) *)
Definition load_model_and_scalers : M unit :=
  try_except
    (let model_path := os_path_join L (base_path L) "water_quality_model.h5" in
     m <- call (LoadModel model_path) (load_model L model_path) ;;
     setattr (set_model m) ;;;
     let x_scaler_path := os_path_join L (base_path L) "X_scaler.joblib" in
     let y_scaler_path := os_path_join L (base_path L) "y_scaler.joblib" in
     xs <- call (JoblibLoad x_scaler_path) (joblib_load L x_scaler_path) ;;
     setattr (set_X_scaler xs) ;;;
     ys <- call (JoblibLoad y_scaler_path) (joblib_load L y_scaler_path) ;;
     setattr (set_y_scaler ys))
    (fun e =>
       showerror "Model Loading Error"
                 ("Could not load model or scalers: " ++ str e)%string ;;;
       raise e).

(** *** [create_ui] (lines 44 to 112): the two empty entries and the
    three result variables; layout and styles carry no state. *)
Definition create_ui : M unit :=
  setattr (set_temp_entry "") ;;;
  setattr (set_date_entry "") ;;;
  setattr (set_result_vars
             (<["pH" := "pH Value: 0.00"]>
                (<["SO4" := "Sulphate (SO₄): 0.00 mg/L"]>
                   (<["NO3" := "Nitrate (NO₃): 0.00 mg/L"]> ∅)))).

(** *** [__init__] (lines 12 to 22); the title, size and colour of the
    window carry no state. *)
Definition __init__ : M unit :=
  load_model_and_scalers ;;; create_ui.

(** *** [predict_water_quality] (lines 114 to 151) *)
Definition predict_body : M unit :=
  temp_text <- getattr "temp_entry" temp_entry ;;
  temperature <- float_of_str temp_text ;;
  date_str <- getattr "date_entry" date_entry ;;
  d <- datetime_strptime date_str ;;
  let month_sin := sin_of_month (float_numeric L) (month d) in
  let month_cos := cos_of_month (float_numeric L) (month d) in
  let base_year := 2010 in
  let year := year d - base_year in
  let input_data := [[temperature; month_sin; month_cos; of_int year]] in
  xs <- getattr "X_scaler" X_scaler ;;
  input_normalized <- call (Transform input_data) (transform xs input_data) ;;
  mdl <- getattr "model" model ;;
  prediction_normalized <-
    call (Predict input_normalized) (predict mdl input_normalized) ;;
  ys <- getattr "y_scaler" y_scaler ;;
  prediction <-
    call (InverseTransform prediction_normalized)
         (inverse_transform ys prediction_normalized) ;;
  result_var_set "NO3"
    (format_item prediction 0 (fun n => "Nitrate (NO₃): " ++ n ++ " mg/L")%string) ;;;
  result_var_set "SO4"
    (format_item prediction 1 (fun n => "Sulphate (SO₄): " ++ n ++ " mg/L")%string) ;;;
  result_var_set "pH"
    (format_item prediction 2 (fun n => "pH Value: " ++ n)%string).

Definition predict_handler (e : exn) : M unit :=
  match e with
  | ValueError _ =>
      showerror "Input Error" "Please enter valid temperature and date."
  | _ => showerror "Prediction Error" (str e)
  end.

Definition predict_water_quality : M unit :=
  try_except predict_body predict_handler.

(** *** The event loop

    Between two calls of the handler the user edits the entries. *)
Inductive user_event : Type :=
| TypeTemperature (text : string)
| TypeDate (text : string)
| ClickPredict.

Definition dispatch (ev : user_event) : M unit :=
  match ev with
  | TypeTemperature text => setattr (set_temp_entry text)
  | TypeDate text => setattr (set_date_entry text)
  | ClickPredict => predict_water_quality
  end.

(** The object after [__init__] and a list of user events. *)
Fixpoint run (evs : list user_event) (app : App) : App :=
  match evs with
  | [] => app
  | ev :: evs' => run evs' (snd (dispatch ev app))
  end.

(** [main] (lines 153 to 156): the object is built, then the event loop
    handles the user's events; an exception of [__init__] ends the
    program before the loop starts. *)
Definition main (evs : list user_event) : result unit * App :=
  match __init__ new_app with
  | (Ok _, app) => (Ok tt, run evs app)
  | (Raise e, app) => (Raise e, app)
  | (Exit x, app) => (Exit x, app)
  end.

(** The states of the object while the event loop runs. *)
Inductive reachable : App -> Prop :=
| reachable_init app :
    __init__ new_app = (Ok tt, app) -> reachable app
| reachable_step app ev :
    reachable app -> reachable (snd (dispatch ev app)).

End Program.

(** * Reasoning about statements *)

(** [wp m Q E X app]: run from [app], the statement [m] either returns
    [a] in a state that satisfies [Q a], or raises [e] in a state that
    satisfies [E e], or is left by the exit signal [x] in a state that
    satisfies [X x]. *)
Definition wp {A} (m : M A) (Q : A -> App -> Prop) (E : exn -> App -> Prop)
    (X : exit_signal -> App -> Prop) (app : App) : Prop :=
  match m app with
  | (Ok a, app') => Q a app'
  | (Raise e, app') => E e app'
  | (Exit x, app') => X x app'
  end.

(** * Specification vocabulary *)

(** The row built on line 132 from the parsed temperature and date. *)
Definition input_row (L : Libs) (t : float) (d : date) : list float :=
  [t; sin_of_month (float_numeric L) (month d);
   cos_of_month (float_numeric L) (month d); of_int (year d - 2010)].

(** One of the three stages after input parsing raises [e]; the list is
    the calls made up to and including the one that raised. *)
Inductive stage_raises (app : App) (input_data : array)
  : exn -> list event -> Prop :=
| scaling_raises xs e :
    X_scaler app = Some xs ->
    transform xs input_data = Raise e ->
    stage_raises app input_data e [Transform input_data]
| inference_raises xs xn mdl e :
    X_scaler app = Some xs ->
    transform xs input_data = Ok xn ->
    model app = Some mdl ->
    predict mdl xn = Raise e ->
    stage_raises app input_data e [Transform input_data; Predict xn]
| inverse_scaling_raises xs xn mdl pn ys e :
    X_scaler app = Some xs ->
    transform xs input_data = Ok xn ->
    model app = Some mdl ->
    predict mdl xn = Ok pn ->
    y_scaler app = Some ys ->
    inverse_transform ys pn = Raise e ->
    stage_raises app input_data e
      [Transform input_data; Predict xn; InverseTransform pn].

(** One of the three loads raises [e]; the list is the loads attempted. *)
Inductive load_raises (L : Libs) : exn -> list event -> Prop :=
| model_load_raises e :
    load_model L (os_path_join L (base_path L) "water_quality_model.h5")
      = Raise e ->
    load_raises L e
      [LoadModel (os_path_join L (base_path L) "water_quality_model.h5")]
| X_scaler_load_raises m e :
    load_model L (os_path_join L (base_path L) "water_quality_model.h5")
      = Ok m ->
    joblib_load L (os_path_join L (base_path L) "X_scaler.joblib") = Raise e ->
    load_raises L e
      [LoadModel (os_path_join L (base_path L) "water_quality_model.h5");
       JoblibLoad (os_path_join L (base_path L) "X_scaler.joblib")]
| y_scaler_load_raises m xs e :
    load_model L (os_path_join L (base_path L) "water_quality_model.h5")
      = Ok m ->
    joblib_load L (os_path_join L (base_path L) "X_scaler.joblib") = Ok xs ->
    joblib_load L (os_path_join L (base_path L) "y_scaler.joblib") = Raise e ->
    load_raises L e
      [LoadModel (os_path_join L (base_path L) "water_quality_model.h5");
       JoblibLoad (os_path_join L (base_path L) "X_scaler.joblib");
       JoblibLoad (os_path_join L (base_path L) "y_scaler.joblib")].

(** A statement keeps a property of the object, whether it returns or
    raises. *)
Definition preserves {A} (P : App -> Prop) (m : M A) : Prop :=
  forall app, P app -> P (snd (m app)).

(** A property of the object that does not depend on what is logged
    later. *)
Definition log_stable (P : App -> Prop) : Prop :=
  forall evs app, P app -> P (log_events evs app).

(** A property of the object that holds again after one of the three
    result variables is set to a number printed by [.2f] inside its
    literal text. *)
Definition set_stable (P : App -> Prop) : Prop :=
  forall key f v app vars,
    In (key, f)
       [("NO3", fun n => "Nitrate (NO₃): " ++ n ++ " mg/L");
        ("SO4", fun n => "Sulphate (SO₄): " ++ n ++ " mg/L");
        ("pH", fun n => "pH Value: " ++ n)]%string ->
    P app -> result_vars app = Some vars ->
    P (set_result_vars (<[key := f (format_2f v)]> vars) app).

(** The text of the three labels, looked up by key. *)
Definition label (app : App) (key : string) : option string :=
  match result_vars app with
  | Some vars => vars !! key
  | None => None
  end.

Definition label_shows_two_decimals (app : App) (key prefix unit : string)
  : bool :=
  match label app key with
  | Some text => shows_two_decimals prefix unit text
  | None => false
  end.

(** All three labels show a number with two decimal places, nitrate and
    sulphate with the unit, pH without. *)
Definition labels_show_two_decimals (app : App) : bool :=
  label_shows_two_decimals app "NO3" "Nitrate (NO₃): " " mg/L" &&
  label_shows_two_decimals app "SO4" "Sulphate (SO₄): " " mg/L" &&
  label_shows_two_decimals app "pH" "pH Value: " "".

(** The label under [key] is the literal text [f] around a number
    printed by [.2f]. *)
Definition label_from (app : App) (key : string) (f : string -> string)
  : Prop :=
  exists v, label app key = Some (f (format_2f v)).

Definition labels_formatted (app : App) : Prop :=
  label_from app "NO3" (fun n => "Nitrate (NO₃): " ++ n ++ " mg/L")%string /\
  label_from app "SO4" (fun n => "Sulphate (SO₄): " ++ n ++ " mg/L")%string /\
  label_from app "pH" (fun n => "pH Value: " ++ n)%string.

(** Every attribute that the handler reads is set, and the three result
    variables exist. *)
Definition initialised (app : App) : Prop :=
  is_Some (model app) /\ is_Some (X_scaler app) /\ is_Some (y_scaler app) /\
  is_Some (temp_entry app) /\ is_Some (date_entry app) /\
  is_Some (label app "NO3") /\ is_Some (label app "SO4") /\
  is_Some (label app "pH").

(** ** The encoding in the plane *)

Definition month_point (m : Z) : R * R :=
  (sin_of_month real_numeric m, cos_of_month real_numeric m).

Definition distance (p q : R * R) : R :=
  sqrt (Rsqr (fst p - fst q) + Rsqr (snd p - snd q)).

(** ** The encoding in binary64

    The exact value of a finite binary64 number: the rational
    [m * 2 ^ e], with its sign; zero for a zero. *)
Definition exact (x : float) : Q :=
  match x with
  | S754_finite s m e =>
      (inject_Z (if s then Z.neg m else Z.pos m) * Qpower 2 e)%Q
  | _ => 0%Q
  end.

(** The two numbers that lines 124 and 125 compute for a month, as the
    exact values of the two binary64 results. *)
Definition float_point_Q (L : Libs) (m : Z) : Q * Q :=
  (exact (sin_of_month (float_numeric L) m),
   exact (cos_of_month (float_numeric L) m)).

Definition float_point (L : Libs) (m : Z) : R * R :=
  (Q2R (fst (float_point_Q L m)), Q2R (snd (float_point_Q L m))).

Definition float_point_is_finite (L : Libs) (m : Z) : bool :=
  is_finite (sin_of_month (float_numeric L) m) &&
  is_finite (cos_of_month (float_numeric L) m).

(** The square of the distance between two points with rational
    coordinates. *)
Definition sq_distance (p q : Q * Q) : Q :=
  ((fst p - fst q) * (fst p - fst q) + (snd p - snd q) * (snd p - snd q))%Q.

(** The month after [m] in the year. *)
Definition next_month (m : Z) : Z := if m =? 12 then 1 else m + 1.

(** Rational bounds: of the square root of 3, to 30 decimal places, and
    of the side [sqrt (2 - sqrt 3)] of the regular dodecagon in the unit
    circle, to 25 decimal places; the unit in the last place of a
    binary64 number between 1 and 2. *)
Definition sqrt3_lo : Q := 1732050807568877293527446341505 # 1000000000000000000000000000000.
Definition sqrt3_hi : Q := 1732050807568877293527446341506 # 1000000000000000000000000000000.
Definition side_lo : Q := 5176380902050415246977976 # 10000000000000000000000000.
Definition side_hi : Q := 5176380902050415246977977 # 10000000000000000000000000.
Definition ulp : Q := 1 # 4503599627370496.

(** ** Sample artifacts, to run the program on concrete inputs *)

Module Demo.

Definition identity_scaler : Scaler := mkScaler Ok Ok.

Definition is_infinite (x : float) : bool :=
  match x with S754_infinity _ => true | _ => false end.

(** A scaler that lets NaN through and refuses an infinite input with a
    [ValueError]. *)
Definition checking_scaler : Scaler :=
  mkScaler
    (fun x =>
       if existsb (existsb is_infinite) x
       then Raise (ValueError "Input X contains infinity or a value too large for dtype('float64').")
       else Ok x)
    Ok.

(** A model whose three outputs are its first three inputs. *)
Definition echo_model : Model := mkModel (fun x => Ok (map (take 3) x)).

(** A model that fails at inference. *)
Definition failing_model : Model :=
  mkModel (fun _ => Raise (OtherError "InvalidArgumentError" "Graph execution error")).


(** A model with two outputs only. *)
Definition short_model : Model := mkModel (fun x => Ok (map (take 2) x)).

(** Polynomials in place of [np.sin] and [np.cos]. *)
Definition poly_sin (x : float) : float :=
  sub x (div (mul x (mul x x)) (of_int 6)).
Definition poly_cos (x : float) : float :=
  sub (of_int 1) (div (mul x x) (of_int 2)).

(** [np.sin] and [np.cos] on the twelve arguments [2*pi*m/12] that the
    handler can pass, one row for each month from 1 to 12: the binary64
    argument, then the binary64 values nearest to its sine and to its
    cosine.  Month 1 reads 0x1.0c152382d7365p-1, 0x1.fffffffffffffp-2
    (0.49999999999999994) and 0x1.bb67ae8584cabp-1
    (0.8660254037844387). *)
Definition trig_table : list (float * (float * float)) :=
  [(S754_finite false 4716158501352293 (-53),
    (S754_finite false 9007199254740991 (-54),
     S754_finite false 7800463371553963 (-53)));
   (S754_finite false 4716158501352293 (-52),
    (S754_finite false 7800463371553962 (-53),
     S754_finite false 4503599627370497 (-53)));
   (S754_finite false 7074237752028440 (-52),
    (S754_finite false 4503599627370496 (-52),
     S754_finite false 4967757600021511 (-106)));
   (S754_finite false 4716158501352293 (-51),
    (S754_finite false 7800463371553963 (-53),
     S754_finite true 9007199254740988 (-54)));
   (S754_finite false 5895198126690367 (-51),
    (S754_finite false 9007199254740991 (-54),
     S754_finite true 7800463371553963 (-53)));
   (S754_finite false 7074237752028440 (-51),
    (S754_finite false 4967757600021511 (-105),
     S754_finite true 4503599627370496 (-52)));
   (S754_finite false 8253277377366513 (-51),
    (S754_finite true 9007199254740987 (-54),
     S754_finite true 7800463371553964 (-53)));
   (S754_finite false 4716158501352293 (-50),
    (S754_finite true 7800463371553960 (-53),
     S754_finite true 4503599627370500 (-53)));
   (S754_finite false 5305678314021330 (-50),
    (S754_finite true 4503599627370496 (-52),
     S754_finite true 7451636400032266 (-105)));
   (S754_finite false 5895198126690367 (-50),
    (S754_finite true 7800463371553962 (-53),
     S754_finite false 4503599627370497 (-53)));
   (S754_finite false 6484717939359403 (-50),
    (S754_finite true 4503599627370500 (-53),
     S754_finite false 7800463371553960 (-53)));
   (S754_finite false 7074237752028440 (-50),
    (S754_finite true 4967757600021511 (-104),
     S754_finite false 4503599627370496 (-52)))].

(** A function given by such a table; no value is claimed outside it. *)
Definition tabulated (column : float * float -> float) (x : float) : float :=
  match find (fun row => SFeqb (fst row) x) trig_table with
  | Some row => column (snd row)
  | None => nan
  end.

Definition join (a b : string) : string := (a ++ "/" ++ b)%string.

Definition libs_with (m : result Model) (s : result Scaler) : Libs :=
  mkLibs poly_sin poly_cos join "/opt/app" (fun _ => m) (fun _ => s).

Definition libs : Libs := libs_with (Ok echo_model) (Ok identity_scaler).

Definition libs_checking : Libs :=
  libs_with (Ok echo_model) (Ok checking_scaler).

Definition libs_failing_model : Libs :=
  libs_with (Ok failing_model) (Ok identity_scaler).


(** The sample libraries with the tabulated sine and cosine. *)
Definition libs_numpy : Libs :=
  mkLibs (tabulated fst) (tabulated snd) join "/opt/app"
    (fun _ => Ok echo_model) (fun _ => Ok identity_scaler).

Definition libs_missing_scaler : Libs :=
  libs_with (Ok echo_model)
    (Raise (OtherError "FileNotFoundError"
              "[Errno 2] No such file or directory: 'X_scaler.joblib'")).

(** The object after [__init__]. *)
Definition started (L : Libs) : App := snd (__init__ L new_app).

(** The object after [__init__] and after the user filled both entries. *)
Definition filled (L : Libs) (temperature day : string) : App :=
  run L [TypeTemperature temperature; TypeDate day] (started L).

(** A well-formed input: 21.5 degrees in March 2015. *)
Definition sample : App := filled libs "21.5" "2015/03".
Definition t21_5 : float := Eval vm_compute in of_decimal false 215 (-1).
Definition march_2015 : date := mkDate 2015 3.

(** The same, after a click on Predict. *)
Definition clicked (L : Libs) (temperature day : string) : App :=
  run L [TypeTemperature temperature; TypeDate day; ClickPredict] (started L).

End Demo.

(** [prediction[0][j]], when the array has it. *)
Definition cell (prediction : array) (j : nat) : option float :=
  match prediction !! 0%nat with
  | Some row => row !! j
  | None => None
  end.

(** ** The events of one click *)

(** The dialogs among the events, as title and message. *)
Fixpoint shown_dialogs (evs : list event) : list (string * string) :=
  match evs with
  | [] => []
  | Showerror title message :: evs' => (title, message) :: shown_dialogs evs'
  | _ :: evs' => shown_dialogs evs'
  end.

(** The keys of the result variables set among the events. *)
Fixpoint set_keys (evs : list event) : list string :=
  match evs with
  | [] => []
  | SetVar key _ :: evs' => key :: set_keys evs'
  | _ :: evs' => set_keys evs'
  end.

(** The library functions called among the events, by name. *)
Fixpoint library_calls (evs : list event) : list string :=
  match evs with
  | [] => []
  | LoadModel _ :: evs' => "load_model" :: library_calls evs'
  | JoblibLoad _ :: evs' => "joblib.load" :: library_calls evs'
  | Transform _ :: evs' => "transform" :: library_calls evs'
  | Predict _ :: evs' => "predict" :: library_calls evs'
  | InverseTransform _ :: evs' => "inverse_transform" :: library_calls evs'
  | _ :: evs' => library_calls evs'
  end.

(** * Rules for [wp] *)

Section WpRules.
Context {A : Type}.
Implicit Types (Q : A -> App -> Prop) (E : exn -> App -> Prop)
  (X : exit_signal -> App -> Prop).

(** Any property of the outcome of [m] can be proved through [wp]. *)
Lemma wp_outcome (m : M A) (R : result A * App -> Prop) app :
  wp m (fun a s => R (Ok a, s)) (fun e s => R (Raise e, s))
     (fun x s => R (Exit x, s)) app ->
  R (m app).
Proof. unfold wp. destruct (m app) as [[a|e|x] s]; auto. Qed.

Lemma wp_mono (m : M A) Q E X Q' E' X' app :
  wp m Q E X app ->
  (forall a s, Q a s -> Q' a s) -> (forall e s, E e s -> E' e s) ->
  (forall x s, X x s -> X' x s) ->
  wp m Q' E' X' app.
Proof. unfold wp. destruct (m app) as [[a|e|x] s]; auto. Qed.

Lemma wp_ret (a : A) Q E X app : Q a app -> wp (ret a) Q E X app.
Proof. intros H; exact H. Qed.

Lemma wp_raise (e : exn) Q E X app : E e app -> wp (raise e) Q E X app.
Proof. intros H; exact H. Qed.

Lemma wp_bind {B} (m : M B) (k : B -> M A) Q E X app :
  wp m (fun b => wp (k b) Q E X) E X app -> wp (bind m k) Q E X app.
Proof. unfold wp, bind. destruct (m app) as [[b|e|x] s]; auto. Qed.

Lemma wp_try_except (body : M A) (h : exn -> M A) Q E X app :
  wp body Q (fun e => wp (h e) Q E X) X app ->
  wp (try_except body h) Q E X app.
Proof. unfold wp, try_except. destruct (body app) as [[a|e|x] s]; auto. Qed.

Lemma wp_lift (r : result A) Q E X app :
  match r with
  | Ok a => Q a app
  | Raise e => E e app
  | Exit x => X x app
  end ->
  wp (lift r) Q E X app.
Proof. unfold wp, lift. destruct r; auto. Qed.

Lemma wp_call (ev : event) (r : result A) Q E X app :
  match r with
  | Ok a => Q a (add_log ev app)
  | Raise e => E e (add_log ev app)
  | Exit x => X x (add_log ev app)
  end ->
  wp (call ev r) Q E X app.
Proof. unfold wp, call, bind, emit, lift. destruct r; auto. Qed.

Lemma wp_getattr (name : string) (field : App -> option A) Q E X app :
  match field app with
  | Some v => Q v app
  | None =>
      E (AttributeError
           ("'WaterQualityPredictionApp' object has no attribute '"
            ++ name ++ "'")%string) app
  end ->
  wp (getattr name field) Q E X app.
Proof. unfold wp, getattr. destruct (field app); auto. Qed.

Lemma wp_item (a : list A) (i : nat) Q E X app :
  match a !! i with
  | Some v => Q v app
  | None =>
      E (IndexError
           ("index " ++ decimal (Z.of_nat i) ++
            " is out of bounds for axis 0 with size " ++
            decimal (Z.of_nat (length a)))%string) app
  end ->
  wp (item a i) Q E X app.
Proof. unfold wp, item. destruct (a !! i); auto. Qed.
End WpRules.

Lemma wp_emit (ev : event) Q E X app :
  Q tt (add_log ev app) -> wp (emit ev) Q E X app.
Proof. intros H; exact H. Qed.

Lemma wp_showerror (title message : string) Q E X app :
  Q tt (add_log (Showerror title message) app) ->
  wp (showerror title message) Q E X app.
Proof. intros H; exact H. Qed.

Lemma wp_setattr (set : App -> App) Q E X app :
  Q tt (set app) -> wp (setattr set) Q E X app.
Proof. intros H; exact H. Qed.

Lemma wp_float_of_str (text : string) Q E X app :
  match py_float text with
  | Some v => Q v app
  | None =>
      E (ValueError ("could not convert string to float: '" ++ text ++ "'")%string)
        app
  end ->
  wp (float_of_str text) Q E X app.
Proof. unfold wp, float_of_str. destruct (py_float text); auto. Qed.

Lemma wp_datetime_strptime (text : string) Q E X app :
  match strptime text with
  | Some d => Q d app
  | None => E (ValueError (strptime_error text)) app
  end ->
  wp (datetime_strptime text) Q E X app.
Proof. unfold wp, datetime_strptime. destruct (strptime text); auto. Qed.

Lemma wp_format_item (prediction : array) (j : nat) (f : string -> string)
    Q E X app :
  match prediction !! 0%nat with
  | Some row =>
      match row !! j with
      | Some p => Q (f (format_2f p)) app
      | None =>
          E (IndexError
               ("index " ++ decimal (Z.of_nat j) ++
                " is out of bounds for axis 0 with size " ++
                decimal (Z.of_nat (length row)))%string) app
      end
  | None =>
      E (IndexError
           ("index " ++ decimal 0 ++
            " is out of bounds for axis 0 with size " ++
            decimal (Z.of_nat (length prediction)))%string) app
  end ->
  wp (format_item prediction j f) Q E X app.
Proof.
  intros H. unfold format_item.
  apply wp_bind, wp_item. destruct (prediction !! 0%nat) as [row|]; [|exact H].
  apply wp_bind, wp_item. destruct (row !! j); exact H.
Qed.

Lemma wp_result_var_set (key : string) (arg : M string) Q E X app :
  match result_vars app with
  | Some vars =>
      match vars !! key with
      | Some _ =>
          wp arg
             (fun text s =>
                Q tt (add_log (SetVar key text)
                        match result_vars s with
                        | Some vs => set_result_vars (<[key := text]> vs) s
                        | None => s
                        end))
             E X app
      | None => E (KeyError ("'" ++ key ++ "'")%string) app
      end
  | None =>
      E (AttributeError
           ("'WaterQualityPredictionApp' object has no attribute '"
            ++ "result_vars" ++ "'")%string) app
  end ->
  wp (result_var_set key arg) Q E X app.
Proof.
  intros H. unfold result_var_set.
  apply wp_bind, wp_getattr. destruct (result_vars app) as [vars|]; [|exact H].
  destruct (vars !! key); [|exact H].
  apply wp_bind. eapply wp_mono; [exact H| |auto|auto].
  intros text st HQ. apply wp_bind, wp_setattr, wp_emit. exact HQ.
Qed.

Ltac state_simpl :=
  cbn [model X_scaler y_scaler temp_entry date_entry result_vars log
       set_model set_X_scaler set_y_scaler set_temp_entry set_date_entry
       set_result_vars add_log log_events].

(** One step of symbolic execution, directed by the statement: the
    first statement of a sequence is run. *)
Ltac wp_step :=
  cbv beta zeta;
  lazymatch goal with
  | |- wp (bind _ _) _ _ _ _ => apply wp_bind; wp_step
  | |- wp (try_except _ _) _ _ _ _ => apply wp_try_except; wp_step
  | |- wp (ret _) _ _ _ _ => apply wp_ret
  | |- wp (raise _) _ _ _ _ => apply wp_raise
  | |- wp (getattr _ _) _ _ _ _ => apply wp_getattr
  | |- wp (setattr _) _ _ _ _ => apply wp_setattr
  | |- wp (emit _) _ _ _ _ => apply wp_emit
  | |- wp (showerror _ _) _ _ _ _ => apply wp_showerror
  | |- wp (call _ _) _ _ _ _ => apply wp_call
  | |- wp (lift _) _ _ _ _ => apply wp_lift
  | |- wp (float_of_str _) _ _ _ _ => apply wp_float_of_str
  | |- wp (datetime_strptime _) _ _ _ _ => apply wp_datetime_strptime
  | |- wp (item _ _) _ _ _ _ => apply wp_item
  | |- wp (result_var_set _ _) _ _ _ _ => apply wp_result_var_set
  | |- wp (format_item _ _ _) _ _ _ _ => apply wp_format_item
  | |- wp (predict_handler _) _ _ _ _ => unfold predict_handler
  end;
  cbv beta zeta; state_simpl; cbv beta iota zeta.

(** A step that reads a value known from a hypothesis. *)
Ltac wp_known H := wp_step; rewrite H; cbv beta iota zeta.

(** * Facts about the text functions *)

Lemma is_digit_value (c : ascii) :
  is_digit c = true -> 0 <= digit_value c <= 9.
Proof.
  unfold is_digit, digit_value. intros H.
  apply andb_true_iff in H as [H1 H2].
  apply Nat.leb_le in H1. apply Nat.leb_le in H2. lia.
Qed.

Lemma digits_value_4 (a b c d : ascii) :
  is_digit a = true -> is_digit b = true ->
  is_digit c = true -> is_digit d = true ->
  0 <= digits_value [a; b; c; d] <= 9999.
Proof.
  intros Ha Hb Hc Hd.
  apply is_digit_value in Ha, Hb, Hc, Hd.
  unfold digits_value. cbn [fold_left]. lia.
Qed.

Lemma match_month_range (s r : list ascii) (m : Z) :
  match_month s = Some (m, r) -> 1 <= m <= 12.
Proof.
  unfold match_month, month_10_to_12, month_01_to_09, month_1_to_9.
  destruct s as [|c [|d s']].
  - discriminate.
  - destruct (is_digit c) eqn:Hc; cbn [andb]; [|discriminate].
    destruct (1 <=? digit_value c) eqn:H1; [|discriminate].
    intros [= <- <-]. apply is_digit_value in Hc. lia.
  - destruct ((c =? "1")%char && is_digit d && (digit_value d <=? 2)) eqn:Ha.
    { intros [= <- <-].
      apply andb_true_iff in Ha as [Ha H2].
      apply andb_true_iff in Ha as [_ Hd].
      apply is_digit_value in Hd. lia. }
    destruct ((c =? "0")%char && is_digit d && (1 <=? digit_value d)) eqn:Hb.
    { intros [= <- <-].
      apply andb_true_iff in Hb as [Hb H1].
      apply andb_true_iff in Hb as [_ Hd].
      apply is_digit_value in Hd. lia. }
    destruct (is_digit c) eqn:Hc; cbn [andb]; [|discriminate].
    destruct (1 <=? digit_value c) eqn:H1; [|discriminate].
    intros [= <- <-]. apply is_digit_value in Hc. lia.
Qed.

(** A date accepted by [strptime] has a month from 1 to 12 and a year
    from 1 to 9999. *)
Lemma strptime_range (s : string) (d : date) :
  strptime s = Some d -> 1 <= month d <= 12 /\ 1 <= year d <= 9999.
Proof.
  unfold strptime.
  destruct (list_ascii_of_string s) as [|y1 [|y2 [|y3 [|y4 [|c r]]]]];
    try discriminate.
  destruct (c =? "/")%char eqn:Hc.
  2:{ destruct c as [[] [] [] [] [] [] [] []]; try discriminate Hc;
      discriminate. }
  apply Ascii.eqb_eq in Hc. subst c.
  destruct (forallb is_digit [y1; y2; y3; y4]) eqn:Hy; [|discriminate].
  destruct (match_month r) as [[m [|c r']]|] eqn:Hm; try discriminate.
  destruct (1 <=? digits_value [y1; y2; y3; y4]) eqn:H1; [|discriminate].
  intros [= <-]. cbn [month year].
  apply match_month_range in Hm.
  cbn [forallb] in Hy. rewrite !andb_true_iff in Hy.
  destruct Hy as (Ha & Hb & Hc & Hd & _).
  pose proof (digits_value_4 _ _ _ _ Ha Hb Hc Hd).
  lia.
Qed.

Lemma list_ascii_of_string_app (a b : string) :
  list_ascii_of_string (a ++ b) =
  (list_ascii_of_string a ++ list_ascii_of_string b)%list.
Proof. induction a as [|c a IH]; simpl; [reflexivity | f_equal; exact IH]. Qed.

Lemma strip_prefix_app (p s : list ascii) :
  strip_prefix p (p ++ s) = Some s.
Proof.
  induction p as [|c p IH]; cbn; [reflexivity|].
  now rewrite Ascii.eqb_refl.
Qed.

Lemma strip_suffix_app (u s : list ascii) :
  strip_suffix u (s ++ u) = Some s.
Proof.
  unfold strip_suffix.
  rewrite rev_app_distr, strip_prefix_app. cbn. now rewrite rev_involutive.
Qed.

Lemma shows_two_decimals_app (prefix unit num : string) :
  shows_two_decimals prefix unit (prefix ++ num ++ unit) =
  two_decimals num.
Proof.
  unfold shows_two_decimals, two_decimals.
  rewrite !list_ascii_of_string_app, strip_prefix_app, strip_suffix_app.
  reflexivity.
Qed.

Lemma span_digits_point (ds rest : list ascii) :
  forallb is_digit ds = true ->
  span_digits (ds ++ "."%char :: rest) = (ds, "."%char :: rest).
Proof.
  induction ds as [|c ds IH]; cbn [forallb app span_digits]; [reflexivity|].
  intros H. apply andb_true_iff in H as [Hc Hds].
  now rewrite Hc, (IH Hds).
Qed.

Lemma string_of_uint_digits (d : Decimal.uint) :
  forallb is_digit (list_ascii_of_string (NilEmpty.string_of_uint d)) = true.
Proof. induction d; cbn; auto. Qed.

Lemma decimal_digits (n : Z) :
  exists c cs,
    list_ascii_of_string (decimal n) = c :: cs /\
    forallb is_digit (c :: cs) = true.
Proof.
  unfold decimal. generalize (N.to_uint (Z.to_N n)). intros d.
  pose proof (string_of_uint_digits d) as H.
  destruct d; cbn in *; eauto.
Qed.

Lemma digit_char_is_digit (x : Z) :
  0 <= x <= 9 -> is_digit (digit_char x) = true.
Proof.
  intros H.
  assert (x = 0 \/ x = 1 \/ x = 2 \/ x = 3 \/ x = 4 \/
          x = 5 \/ x = 6 \/ x = 7 \/ x = 8 \/ x = 9) as Hx by lia.
  repeat (destruct Hx as [-> | Hx]; [reflexivity|]). now subst.
Qed.

Lemma not_minus_of_digit (c : ascii) :
  is_digit c = true -> (c =? "-")%char = false.
Proof. intros H. apply Ascii.eqb_neq. intros ->. discriminate H. Qed.

Lemma two_decimals_unsigned (h : Z) :
  exists c r,
    list_ascii_of_string (fixed2 h) = c :: r /\ is_digit c = true /\
    two_decimals_chars (c :: r) = true.
Proof.
  unfold fixed2.
  destruct (decimal_digits (h / 100)) as (c & cs & Hdec & Hdig).
  set (d1 := digit_char (h / 10 mod 10)).
  set (d2 := digit_char (h mod 10)).
  assert (is_digit d1 = true /\ is_digit d2 = true) as [Hd1 Hd2].
  { pose proof (Z.mod_pos_bound (h / 10) 10).
    pose proof (Z.mod_pos_bound h 10).
    split; apply digit_char_is_digit; lia. }
  exists c, (cs ++ ["."%char; d1; d2])%list.
  rewrite list_ascii_of_string_app, Hdec.
  assert (Hc : is_digit c = true).
  { cbn [forallb] in Hdig. now apply andb_true_iff in Hdig as [? _]. }
  repeat split; [exact Hc|].
  unfold two_decimals_chars. rewrite (not_minus_of_digit c Hc).
  change (c :: (cs ++ ["."%char; d1; d2])%list)
    with ((c :: cs) ++ "."%char :: [d1; d2])%list.
  rewrite (span_digits_point (c :: cs) _ Hdig).
  now rewrite Hd1, Hd2.
Qed.

Lemma two_decimals_fixed2 (s : bool) (h : Z) :
  two_decimals (sign_text s ++ fixed2 h) = true.
Proof.
  destruct (two_decimals_unsigned h) as (c & r & Hcs & Hc & Hok).
  unfold two_decimals. rewrite list_ascii_of_string_app, Hcs.
  destruct s; [|exact Hok].
  change (list_ascii_of_string (sign_text true) ++ c :: r)%list
    with ("-"%char :: c :: r).
  unfold two_decimals_chars in *.
  rewrite Ascii.eqb_refl. now rewrite (not_minus_of_digit c Hc) in Hok.
Qed.

(** A finite value is printed with exactly two decimal places. *)
Lemma format_2f_finite (x : float) :
  is_finite x = true -> two_decimals (format_2f x) = true.
Proof.
  destruct x as [s|s| |s m e]; cbn [is_finite format_2f]; try discriminate;
    intros _.
  - destruct s; reflexivity.
  - apply two_decimals_fixed2.
Qed.

(** A value that is not finite is printed without decimal places. *)
Lemma format_2f_not_finite (x : float) :
  is_finite x = false -> two_decimals (format_2f x) = false.
Proof.
  destruct x as [s|s| |s m e]; cbn [is_finite]; try discriminate; intros _.
  - destruct s; reflexivity.
  - reflexivity.
Qed.

(** * The call chain *)

Ltac state_unfold :=
  cbv [model X_scaler y_scaler temp_entry date_entry result_vars log
       set_model set_X_scaler set_y_scaler set_temp_entry set_date_entry
       set_result_vars add_log log_events].

Section Handler.
Variable L : Libs.

(** C2. On a well-formed input, with every stage returning, the handler
    parses the two entries, builds the four features, calls
    [X_scaler.transform] on them, [model.predict] on the result,
    [y_scaler.inverse_transform] on that result, and sets the three
    variables, nitrate, sulphate and pH in this order, from columns 0,
    1 and 2 of row 0 of the denormalized output, each printed with the
    format [.2f]; nothing else is called and no other attribute
    changes. *)
Theorem predict_call_chain (app : App) ts ds t d xs mdl ys vars xn pn
    prediction row p0 p1 p2 :
  temp_entry app = Some ts -> date_entry app = Some ds ->
  X_scaler app = Some xs -> model app = Some mdl ->
  y_scaler app = Some ys -> result_vars app = Some vars ->
  is_Some (vars !! "NO3") -> is_Some (vars !! "SO4") ->
  is_Some (vars !! "pH") ->
  py_float ts = Some t -> strptime ds = Some d ->
  let angle := div (mul (mul (of_int 2) pi) (of_int (month d))) (of_int 12) in
  let input_data :=
    [[t; np_sin L angle; np_cos L angle; of_int (year d - 2010)]] in
  transform xs input_data = Ok xn ->
  predict mdl xn = Ok pn ->
  inverse_transform ys pn = Ok prediction ->
  prediction !! 0%nat = Some row ->
  row !! 0%nat = Some p0 -> row !! 1%nat = Some p1 ->
  row !! 2%nat = Some p2 ->
  let no3 := ("Nitrate (NO₃): " ++ format_2f p0 ++ " mg/L")%string in
  let so4 := ("Sulphate (SO₄): " ++ format_2f p1 ++ " mg/L")%string in
  let ph := ("pH Value: " ++ format_2f p2)%string in
  predict_water_quality L app =
    (Ok tt,
     mkApp (model app) (X_scaler app) (y_scaler app)
       (temp_entry app) (date_entry app)
       (Some (<["pH" := ph]> (<["SO4" := so4]> (<["NO3" := no3]> vars))))
       (log app ++
        [Transform input_data; Predict xn; InverseTransform pn;
         SetVar "NO3" no3; SetVar "SO4" so4; SetVar "pH" ph])).
Proof.
  intros Hte Hde Hxs Hmdl Hys Hrv [v0 Hv0] [v1 Hv1] [v2 Hv2] Hf Hs
         angle input_data Hx Hp Hi Hrow H0 H1 H2 no3 so4 ph.
  destruct app as [mo xo yo te de rv lg];
    cbn in Hte, Hde, Hxs, Hmdl, Hys, Hrv; subst.
  match goal with |- ?lhs = _ => pattern lhs end. apply wp_outcome.
  unfold predict_water_quality, predict_body.
  wp_step. wp_known Hf. wp_step. wp_known Hs. wp_step.
  change [[t; sin_of_month (float_numeric L) (month d);
           cos_of_month (float_numeric L) (month d);
           of_int (year d - 2010)]] with input_data.
  wp_known Hx. wp_step. wp_known Hp. wp_step. wp_known Hi.
  wp_known Hv0. wp_step. rewrite Hrow, H0.
  wp_step. rewrite lookup_insert_ne, Hv1 by done.
  wp_step. rewrite Hrow, H1.
  wp_step. rewrite !lookup_insert_ne, Hv2 by done.
  wp_step. rewrite Hrow, H2.
  state_unfold. rewrite <- !app_assoc. reflexivity.
Qed.



(** What the handler does when a stage raises after the input was
    parsed: the calls made so far, then one dialog. *)
Lemma stage_exception_dialog (app : App) ts ds t d e evs :
  temp_entry app = Some ts -> date_entry app = Some ds ->
  py_float ts = Some t -> strptime ds = Some d ->
  stage_raises app [input_row L t d] e evs ->
  predict_water_quality L app =
    (Ok tt,
     mkApp (model app) (X_scaler app) (y_scaler app)
       (temp_entry app) (date_entry app) (result_vars app)
       (log app ++ evs ++
        [if is_ValueError e
         then Showerror "Input Error" "Please enter valid temperature and date."
         else Showerror "Prediction Error" (str e)])).
Proof.
  intros Hte Hde Hf Hs Hst.
  destruct app as [mo xo yo te de rv lg]; cbn in Hte, Hde; subst.
  match goal with |- ?lhs = _ => pattern lhs end. apply wp_outcome.
  unfold predict_water_quality, predict_body.
  wp_step. wp_known Hf. wp_step. wp_known Hs.
  inversion Hst as [xs e' Hxs Hx | xs xn mdl e' Hxs Hx Hmdl Hp
                   | xs xn mdl pn ys e' Hxs Hx Hmdl Hp Hys Hi];
    subst; cbn in Hxs; subst; unfold input_row in *.
  - wp_step. wp_known Hx. wp_step.
    destruct e; wp_step; state_unfold; cbn [is_ValueError app];
      rewrite <- ?app_assoc; reflexivity.
  - cbn in Hmdl; subst.
    wp_step. wp_known Hx. wp_step. wp_known Hp. wp_step.
    destruct e; wp_step; state_unfold; cbn [is_ValueError app];
      rewrite <- ?app_assoc; reflexivity.
  - cbn in Hmdl, Hys; subst.
    wp_step. wp_known Hx. wp_step. wp_known Hp. wp_step. wp_known Hi.
    wp_step.
    destruct e; wp_step; state_unfold; cbn [is_ValueError app];
      rewrite <- ?app_assoc; reflexivity.
Qed.


(** C7. A [ValueError] raised by [X_scaler.transform], [model.predict]
    or [y_scaler.inverse_transform], after both entries were parsed, is
    handled like malformed input: the handler returns, the one event it
    adds after the calls made so far is the dialog [Input Error] with
    the message about temperature and date, and no [Prediction Error]
    dialog is among the events the click adds to the log. *)
Theorem late_ValueError_is_input_error (app : App) ts ds t d msg evs :
  temp_entry app = Some ts -> date_entry app = Some ds ->
  py_float ts = Some t -> strptime ds = Some d ->
  stage_raises app [input_row L t d] (ValueError msg) evs ->
  predict_water_quality L app =
    (Ok tt,
     mkApp (model app) (X_scaler app) (y_scaler app)
       (temp_entry app) (date_entry app) (result_vars app)
       (log app ++ evs ++
        [Showerror "Input Error" "Please enter valid temperature and date."])) /\
  forall m,
    ~ In (Showerror "Prediction Error" m)
         (drop (length (log app)) (log (snd (predict_water_quality L app)))).
Proof.
  intros Hte Hde Hf Hs Hst.
  rewrite (stage_exception_dialog app ts ds t d _ evs Hte Hde Hf Hs Hst).
  cbn [is_ValueError snd log]. split; [reflexivity|].
  intros m Hin. rewrite drop_app_length in Hin.
  inversion Hst; subst; cbn in Hin; intuition discriminate.
Qed.

End Handler.

(** * Loading the artifacts *)

Section Loading.
Variable L : Libs.

Let model_path : string :=
  os_path_join L (base_path L) "water_quality_model.h5".
Let x_scaler_path : string :=
  os_path_join L (base_path L) "X_scaler.joblib".
Let y_scaler_path : string :=
  os_path_join L (base_path L) "y_scaler.joblib".

(** What [load_model_and_scalers] does when a load raises. *)
Lemma load_raises_outcome (app : App) e evs :
  load_raises L e evs ->
  exists app',
    load_model_and_scalers L app = (Raise e, app') /\
    log app' =
      (log app ++ evs ++
       [Showerror "Model Loading Error"
          ("Could not load model or scalers: " ++ str e)%string])%list /\
    temp_entry app' = temp_entry app /\
    date_entry app' = date_entry app /\
    result_vars app' = result_vars app.
Proof.
  intros Hl.
  destruct app as [mo xo yo te de rv lg].
  match goal with
  | |- exists app', ?m = _ /\ _ =>
      pattern m; apply wp_outcome; unfold load_model_and_scalers
  end.
  inversion Hl as [e' Hm | m e' Hm Hx | m xs e' Hm Hx Hy]; subst.
  - wp_known Hm. wp_step. wp_step.
    eexists; split; [reflexivity|]. state_unfold.
    rewrite <- ?app_assoc. auto.
  - wp_known Hm. wp_step. wp_known Hx. wp_step. wp_step.
    eexists; split; [reflexivity|]. state_unfold.
    rewrite <- ?app_assoc. auto.
  - wp_known Hm. wp_step. wp_known Hx. wp_step. wp_known Hy.
    wp_step. wp_step.
    eexists; split; [reflexivity|]. state_unfold.
    rewrite <- ?app_assoc. auto.
Qed.

(** What [load_model_and_scalers] did when it returns. *)
Lemma load_returns_outcome (app app' : App) :
  load_model_and_scalers L app = (Ok tt, app') ->
  exists m xs ys,
    load_model L model_path = Ok m /\
    joblib_load L x_scaler_path = Ok xs /\
    joblib_load L y_scaler_path = Ok ys /\
    model app' = Some m /\ X_scaler app' = Some xs /\
    y_scaler app' = Some ys /\
    log app' =
      (log app ++ [LoadModel model_path; JoblibLoad x_scaler_path;
                   JoblibLoad y_scaler_path])%list.
Proof.
  destruct app as [mo xo yo te de rv lg].
  match goal with
  | |- ?m = _ -> _ =>
      pattern m; apply wp_outcome; unfold load_model_and_scalers
  end.
  fold model_path x_scaler_path y_scaler_path.
  wp_step.
  destruct (load_model L model_path) as [m|e|x] eqn:Hm.
  2,3: (repeat wp_step; discriminate).
  wp_step. wp_step.
  destruct (joblib_load L x_scaler_path) as [xs|e|x] eqn:Hx.
  2,3: (repeat wp_step; discriminate).
  wp_step. wp_step.
  destruct (joblib_load L y_scaler_path) as [ys|e|x] eqn:Hy.
  2,3: (repeat wp_step; discriminate).
  wp_step. intros [= <-].
  exists m, xs, ys. state_unfold. rewrite <- ?app_assoc.
  repeat split; reflexivity.
Qed.

(** C4. When loading the model or one of the two scalers raises,
    [load_model_and_scalers] shows the dialog [Model Loading Error] with
    the text of the exception and raises the same exception again;
    [__init__] then raises it too, the user interface is not built, and
    [main] ends with this exception before any event is handled.
    Conversely, when [load_model_and_scalers] returns, the three loads
    returned and the three attributes hold what they returned. *)
Theorem load_failure_is_reported_and_raised (app : App) :
  (forall e evs,
     load_raises L e evs ->
     exists app',
       load_model_and_scalers L app = (Raise e, app') /\
       __init__ L app = (Raise e, app') /\
       log app' =
         (log app ++ evs ++
          [Showerror "Model Loading Error"
             ("Could not load model or scalers: " ++ str e)%string])%list /\
       result_vars app' = result_vars app) /\
  (forall e evs user_events,
     load_raises L e evs ->
     fst (main L user_events) = Raise e /\
     result_vars (snd (main L user_events)) = None) /\
  (forall app',
     load_model_and_scalers L app = (Ok tt, app') ->
     exists m xs ys,
       load_model L model_path = Ok m /\
       joblib_load L x_scaler_path = Ok xs /\
       joblib_load L y_scaler_path = Ok ys /\
       model app' = Some m /\ X_scaler app' = Some xs /\
       y_scaler app' = Some ys).
Proof.
  repeat apply conj.
  - intros e evs Hl.
    destruct (load_raises_outcome app e evs Hl)
      as (app' & Hload & Hlog & _ & _ & Hrv).
    exists app'. repeat split; auto.
    unfold __init__, bind. now rewrite Hload.
  - intros e evs user_events Hl.
    destruct (load_raises_outcome new_app e evs Hl)
      as (app' & Hload & _ & _ & _ & Hrv).
    unfold main, __init__, bind. rewrite Hload. cbn [fst snd]. auto.
  - intros app' Hok.
    destruct (load_returns_outcome app app' Hok)
      as (m & xs & ys & Hm & Hx & Hy & H1 & H2 & H3 & _).
    exists m, xs, ys. auto 10.
Qed.

End Loading.

(** * Properties kept by every statement of the handler *)

Section Preserves.
Context {A : Type} (P : App -> Prop).

Lemma preserves_ret (a : A) : preserves P (ret a).
Proof. intros app H. exact H. Qed.

Lemma preserves_raise (e : exn) : preserves P (@raise A e).
Proof. intros app H. exact H. Qed.

Lemma preserves_lift (r : result A) : preserves P (lift r).
Proof. intros app H. exact H. Qed.

Lemma preserves_getattr (name : string) (field : App -> option A) :
  preserves P (getattr name field).
Proof. intros app H. unfold getattr. now destruct (field app). Qed.

Lemma preserves_item (a : list A) (i : nat) : preserves P (item a i).
Proof. intros app H. unfold item. now destruct (a !! i). Qed.

Lemma preserves_bind {B} (m : M B) (k : B -> M A) :
  preserves P m -> (forall b, preserves P (k b)) -> preserves P (bind m k).
Proof.
  intros Hm Hk app H. unfold bind.
  specialize (Hm app H). destruct (m app) as [[b|e|x] s]; cbn [snd] in *.
  - now apply Hk.
  - exact Hm.
  - exact Hm.
Qed.

Lemma preserves_try_except (body : M A) (h : exn -> M A) :
  preserves P body -> (forall e, preserves P (h e)) ->
  preserves P (try_except body h).
Proof.
  intros Hb Hh app H. unfold try_except.
  specialize (Hb app H). destruct (body app) as [[a|e|x] s]; cbn [snd] in *.
  - exact Hb.
  - now apply Hh.
  - exact Hb.
Qed.

Lemma preserves_call (ev : event) (r : result A) :
  log_stable P -> preserves P (call ev r).
Proof. intros Hl app H. apply (Hl [ev] app H). Qed.

(** From a state where [P] holds, a statement that keeps [P] ends in a
    state where [P] holds. *)
Lemma wp_preserves (m : M A) (app : App) :
  preserves P m -> P app ->
  wp m (fun _ s => P s) (fun _ s => P s) (fun _ s => P s) app.
Proof.
  intros Hm H. unfold wp. specialize (Hm app H).
  now destruct (m app) as [[a|e|x] s].
Qed.
End Preserves.

Section PreservesHandler.
Variable P : App -> Prop.
Hypothesis P_log : log_stable P.

Lemma preserves_emit (ev : event) : preserves P (emit ev).
Proof. intros app H. apply (P_log [ev] app H). Qed.

Lemma preserves_showerror (title message : string) :
  preserves P (showerror title message).
Proof. apply preserves_emit. Qed.

Lemma preserves_float_of_str (text : string) : preserves P (float_of_str text).
Proof.
  intros app H. unfold float_of_str. now destruct (py_float text).
Qed.

Lemma preserves_datetime_strptime (text : string) :
  preserves P (datetime_strptime text).
Proof.
  intros app H. unfold datetime_strptime. now destruct (strptime text).
Qed.

Lemma preserves_predict_handler (e : exn) : preserves P (predict_handler e).
Proof. destruct e; apply preserves_showerror. Qed.

Lemma preserves_result_var_set (key : string) (prediction : array) (j : nat)
    (f : string -> string) :
  (forall v app vars,
     P app -> result_vars app = Some vars ->
     P (set_result_vars (<[key := f (format_2f v)]> vars) app)) ->
  preserves P (result_var_set key (format_item prediction j f)).
Proof.
  intros Hset app H.
  match goal with |- P (snd ?o) => pattern o end.
  apply wp_outcome. cbn [snd].
  apply wp_result_var_set.
  destruct (result_vars app) as [vars|] eqn:Hvars; [|exact H].
  destruct (vars !! key); [|exact H].
  apply wp_format_item.
  destruct (prediction !! 0%nat) as [row|]; [|exact H].
  destruct (row !! j) as [p|]; [|exact H].
  rewrite Hvars. apply (P_log [_]). now apply Hset.
Qed.

End PreservesHandler.

(** The statements of the handler, one after the other. *)
Ltac preserves_tac Hlog Hset :=
  repeat first
    [ apply preserves_ret | apply preserves_raise | apply preserves_lift
    | apply preserves_getattr | apply preserves_item
    | apply preserves_float_of_str | apply preserves_datetime_strptime
    | apply preserves_call; [exact Hlog]
    | apply preserves_emit; [exact Hlog]
    | apply preserves_showerror; [exact Hlog]
    | apply preserves_predict_handler; [exact Hlog]
    | lazymatch goal with
      | |- preserves _ (result_var_set ?key (format_item _ _ ?f)) =>
          let v := fresh "v" in
          let app := fresh "app" in
          let vars := fresh "vars" in
          let HP := fresh "HP" in
          let Hv := fresh "Hv" in
          apply preserves_result_var_set;
          [ exact Hlog
          | intros v app vars HP Hv;
            apply (Hset key f v app vars);
            [cbn [In]; auto | exact HP | exact Hv] ]
      end
    | apply preserves_bind; [|intros ?]
    | apply preserves_try_except; [|intros ?] ].

(** The handler keeps every property that later logging and the setting
    of a result variable keep. *)
Lemma preserves_predict_water_quality (P : App -> Prop) (L : Libs) :
  log_stable P -> set_stable P -> preserves P (predict_water_quality L).
Proof.
  intros Hlog Hset.
  unfold predict_water_quality, predict_body.
  preserves_tac Hlog Hset.
Qed.

(** A lower bound on the log is such a property. *)
Lemma prefix_log_stable (pre : list event) :
  log_stable (fun s => pre `prefix_of` log s).
Proof. intros evs app H. cbn. now apply prefix_app_r. Qed.

Lemma prefix_set_stable (pre : list event) :
  set_stable (fun s => pre `prefix_of` log s).
Proof. intros key f v app vars _ H _. exact H. Qed.

Section Features.
Variable L : Libs.

(** On a well-formed input the first call of the handler is
    [X_scaler.transform] on the row of four features. *)
Lemma transform_called_first (app : App) ts ds t d xs :
  temp_entry app = Some ts -> date_entry app = Some ds ->
  py_float ts = Some t -> strptime ds = Some d ->
  X_scaler app = Some xs ->
  exists rest,
    log (snd (predict_water_quality L app)) =
    (log app ++ Transform [input_row L t d] :: rest)%list.
Proof.
  intros Hte Hde Hf Hs Hxs.
  set (input_data := [input_row L t d]).
  assert (Hpre : (log app ++ [Transform input_data])%list `prefix_of`
                 log (snd (predict_water_quality L app))).
  { destruct app as [mo xo yo te de rv lg]; cbn in Hte, Hde, Hxs; subst.
    match goal with |- _ `prefix_of` log (snd ?o) => pattern o end.
    apply wp_outcome. cbn [snd].
    unfold predict_water_quality, predict_body.
    wp_step. wp_known Hf. wp_step. wp_known Hs. wp_step.
    change [[t; sin_of_month (float_numeric L) (month d);
             cos_of_month (float_numeric L) (month d);
             of_int (year d - 2010)]] with input_data.
    set (P := fun s : App =>
                (lg ++ [Transform input_data])%list `prefix_of` log s).
    assert (Hlog : log_stable P) by apply prefix_log_stable.
    assert (Hset : set_stable P) by apply prefix_set_stable.
    assert (H1 : P (add_log (Transform input_data)
                      (mkApp mo (Some xs) yo (Some ts) (Some ds) rv lg)))
      by (subst P; cbn; reflexivity).
    apply wp_bind, wp_call.
    destruct (transform xs input_data) as [xn|e|x].
    - eapply wp_mono.
      + apply (wp_preserves P); [preserves_tac Hlog Hset | exact H1].
      + auto.
      + intros e s Hs'.
        apply (wp_preserves P); [preserves_tac Hlog Hset | exact Hs'].
      + auto.
    - apply (wp_preserves P); [preserves_tac Hlog Hset | exact H1].
    - exact H1. }
  destruct Hpre as [rest Hrest]. exists rest.
  rewrite Hrest, <- app_assoc. reflexivity.
Qed.

(** When the scaler returns, the second call of the handler is
    [model.predict] on what the scaler returned. *)
Lemma predict_called_second (app : App) ts ds t d xs xn mdl :
  temp_entry app = Some ts -> date_entry app = Some ds ->
  py_float ts = Some t -> strptime ds = Some d ->
  X_scaler app = Some xs -> transform xs [input_row L t d] = Ok xn ->
  model app = Some mdl ->
  exists rest,
    log (snd (predict_water_quality L app)) =
    (log app ++ Transform [input_row L t d] :: Predict xn :: rest)%list.
Proof.
  intros Hte Hde Hf Hs Hxs Hx Hmdl.
  set (input_data := [input_row L t d]) in *.
  assert (Hpre : (log app ++ [Transform input_data; Predict xn])%list
                 `prefix_of` log (snd (predict_water_quality L app))).
  { destruct app as [mo xo yo te de rv lg];
      cbn in Hte, Hde, Hxs, Hmdl; subst.
    match goal with |- _ `prefix_of` log (snd ?o) => pattern o end.
    apply wp_outcome. cbn [snd].
    unfold predict_water_quality, predict_body.
    wp_step. wp_known Hf. wp_step. wp_known Hs. wp_step.
    change [[t; sin_of_month (float_numeric L) (month d);
             cos_of_month (float_numeric L) (month d);
             of_int (year d - 2010)]] with input_data.
    wp_known Hx. wp_step.
    set (P := fun s : App =>
                (lg ++ [Transform input_data; Predict xn])%list
                `prefix_of` log s).
    assert (Hlog : log_stable P) by apply prefix_log_stable.
    assert (Hset : set_stable P) by apply prefix_set_stable.
    apply wp_bind, wp_call.
    match goal with
    | |- match _ with Ok _ => _ ?s | _ => _ end =>
        assert (H1 : P s)
          by (subst P; state_unfold; rewrite <- app_assoc; reflexivity)
    end.
    destruct (predict mdl xn) as [pn|e|x].
    - eapply wp_mono.
      + apply (wp_preserves P); [preserves_tac Hlog Hset | exact H1].
      + auto.
      + intros e s Hs'.
        apply (wp_preserves P); [preserves_tac Hlog Hset | exact Hs'].
      + auto.
    - apply (wp_preserves P); [preserves_tac Hlog Hset | exact H1].
    - exact H1. }
  destruct Hpre as [rest Hrest]. exists rest.
  rewrite Hrest, <- app_assoc. reflexivity.
Qed.

(** C1. On a well-formed input, with temperature [t], month [m] and year
    [y] read from the two entries, the month is between 1 and 12 and the
    array passed to the scaler is the single row
    [t, sin(2*pi*m/12), cos(2*pi*m/12), y - 2010], in this order. *)
Theorem feature_vector (app : App) ts ds t d xs :
  temp_entry app = Some ts -> date_entry app = Some ds ->
  py_float ts = Some t -> strptime ds = Some d ->
  X_scaler app = Some xs ->
  let m := month d in
  let y := year d in
  let angle := div (mul (mul (of_int 2) pi) (of_int m)) (of_int 12) in
  1 <= m <= 12 /\
  exists rest,
    log (snd (predict_water_quality L app)) =
    (log app ++
     Transform [[t; np_sin L angle; np_cos L angle; of_int (y - 2010)]]
     :: rest)%list.
Proof.
  intros Hte Hde Hf Hs Hxs m y angle. split.
  - apply (strptime_range ds d Hs).
  - apply (transform_called_first app ts ds t d xs Hte Hde Hf Hs Hxs).
Qed.

(** C8. The temperature is validated by [float] alone: the texts [nan],
    [inf], [-inf] and a number between spaces are accepted, with the
    values NaN, plus and minus infinity and 3.5 (which is
    7881299347898368 * 2^-51); whatever value [float] returns, finite or
    not, is the first feature of the row passed to [X_scaler.transform];
    when the scaler returns, [model.predict] is called next, on what the
    scaler returned; and when the scaler raises a [ValueError], the
    click ends with the [Input Error] dialog and the model is not
    called. *)
Theorem temperature_is_not_range_checked :
  py_float "nan" = Some nan /\
  py_float "inf" = Some (inf false) /\
  py_float "-inf" = Some (inf true) /\
  py_float "  3.5 " = Some (S754_finite false 7881299347898368 (-51)) /\
  forall (app : App) ts ds t d xs,
    temp_entry app = Some ts -> date_entry app = Some ds ->
    py_float ts = Some t -> strptime ds = Some d ->
    X_scaler app = Some xs ->
    (exists others rest,
       input_row L t d = t :: others /\
       log (snd (predict_water_quality L app)) =
       (log app ++ Transform [t :: others] :: rest)%list) /\
    (forall xn mdl,
       transform xs [input_row L t d] = Ok xn -> model app = Some mdl ->
       exists rest,
         log (snd (predict_water_quality L app)) =
         (log app ++ Transform [input_row L t d] :: Predict xn :: rest)%list) /\
    (forall msg,
       transform xs [input_row L t d] = Raise (ValueError msg) ->
       predict_water_quality L app =
         (Ok tt,
          mkApp (model app) (X_scaler app) (y_scaler app)
            (temp_entry app) (date_entry app) (result_vars app)
            (log app ++
             [Transform [input_row L t d];
              Showerror "Input Error"
                "Please enter valid temperature and date."]))).
Proof.
  repeat apply conj; try reflexivity.
  intros app ts ds t d xs Hte Hde Hf Hs Hxs. repeat apply conj.
  - destruct (transform_called_first app ts ds t d xs Hte Hde Hf Hs Hxs)
      as [rest Hrest].
    eexists _, rest. split; [reflexivity|exact Hrest].
  - intros xn mdl Hx Hmdl.
    apply (predict_called_second app ts ds t d xs xn mdl); assumption.
  - intros msg Hx.
    apply (stage_exception_dialog L app ts ds t d (ValueError msg)
             [Transform [input_row L t d]] Hte Hde Hf Hs).
    now apply scaling_raises with xs.
Qed.

End Features.

(** * The input-error path leaves the results alone *)

(** Every path of the handler, one case per outcome of each statement. *)
Ltac explore :=
  repeat first
    [ wp_step
    | lazymatch goal with
      | |- match ?x with _ => _ end => destruct x eqn:?
      | |- wp (match ?x with _ => _ end) _ _ _ _ => destruct x
      end ].

Section InputError.
Variable L : Libs.

(** What one run of the handler adds to the log, and when it can have
    changed the result variables. *)
Lemma input_error_or_results (app : App) :
  exists new,
    log (snd (predict_water_quality L app)) = (log app ++ new)%list /\
    ((exists msg, In (Showerror "Input Error" msg) new) ->
     result_vars (snd (predict_water_quality L app)) = result_vars app).
Proof.
  destruct app as [mo xo yo te de rv lg].
  match goal with
  | |- exists new, log (snd ?o) = _ /\ _ => pattern o
  end.
  apply wp_outcome. cbn [snd].
  unfold predict_water_quality, predict_body.
  explore;
    state_unfold; eexists;
    (split;
     [ rewrite <- ?app_assoc; reflexivity
     | intros [? Hin]; cbn [In app] in Hin;
       first [ reflexivity | exfalso; intuition discriminate ] ]).
Qed.

(** C6. Whenever a click on Predict shows the [Input Error] dialog, the
    three result variables hold after the click what they held before
    it. *)
Theorem input_error_keeps_results (app : App) new msg :
  log (snd (predict_water_quality L app)) = (log app ++ new)%list ->
  In (Showerror "Input Error" msg) new ->
  result_vars (snd (predict_water_quality L app)) = result_vars app /\
  label (snd (predict_water_quality L app)) "NO3" = label app "NO3" /\
  label (snd (predict_water_quality L app)) "SO4" = label app "SO4" /\
  label (snd (predict_water_quality L app)) "pH" = label app "pH".
Proof.
  intros Hlog Hin.
  destruct (input_error_or_results app) as (new' & Hlog' & Hkeep).
  rewrite Hlog in Hlog'. apply app_inv_head in Hlog'. subst new'.
  assert (Hrv : result_vars (snd (predict_water_quality L app))
                = result_vars app) by (apply Hkeep; eauto).
  unfold label. rewrite Hrv. auto.
Qed.

End InputError.

(** * What the labels show in every reachable state *)

Lemma append_empty_r (s : string) : (s ++ "")%string = s.
Proof.
  induction s as [|c s IH]; [reflexivity|].
  change (String c (s ++ "") = String c s)%string. now rewrite IH.
Qed.

(** The format [.2f] prints two decimal places exactly when the value is
    finite. *)
Lemma two_decimals_format_2f (x : float) :
  two_decimals (format_2f x) = is_finite x.
Proof.
  destruct (is_finite x) eqn:H.
  - now apply format_2f_finite.
  - now apply format_2f_not_finite.
Qed.

Lemma labels_formatted_log_stable : log_stable labels_formatted.
Proof. intros evs app H. exact H. Qed.

Lemma labels_formatted_set_stable : set_stable labels_formatted.
Proof.
  intros key f v app vars Hin (H0 & H1 & H2) Hvars.
  unfold labels_formatted, label_from, label in *.
  rewrite Hvars in H0, H1, H2. cbn [result_vars set_result_vars].
  cbn [In] in Hin.
  destruct Hin as [[= <- <-] | [[= <- <-] | [[= <- <-] | []]]].
  - rewrite lookup_insert_eq, !lookup_insert_ne by done. eauto.
  - rewrite lookup_insert_eq, !lookup_insert_ne by done. eauto.
  - rewrite lookup_insert_eq, !lookup_insert_ne by done. eauto.
Qed.

Lemma initialised_log_stable : log_stable initialised.
Proof. intros evs app H. exact H. Qed.

Lemma initialised_set_stable : set_stable initialised.
Proof.
  intros key f v app vars Hin (Hm & Hx & Hy & Ht & Hd & H0 & H1 & H2) Hvars.
  unfold initialised, label in *.
  rewrite Hvars in H0, H1, H2.
  cbn [model X_scaler y_scaler temp_entry date_entry result_vars
       set_result_vars].
  repeat split; try assumption;
    (destruct (decide (key = "NO3")) as [->|];
     [rewrite ?lookup_insert_eq, ?lookup_insert_ne by done; eauto|]);
    (destruct (decide (key = "SO4")) as [->|];
     [rewrite ?lookup_insert_eq, ?lookup_insert_ne by done; eauto|]);
    (destruct (decide (key = "pH")) as [->|];
     [rewrite ?lookup_insert_eq, ?lookup_insert_ne by done; eauto|]);
    rewrite lookup_insert_ne by done; assumption.
Qed.

Section Reachable.
Variable L : Libs.

(** The object that [__init__] returns. *)
Lemma init_outcome (app : App) :
  __init__ L new_app = (Ok tt, app) ->
  exists s,
    fst (load_model_and_scalers L new_app) = Ok tt /\
    s = snd (load_model_and_scalers L new_app) /\
    app =
      set_result_vars
        (<["pH" := "pH Value: 0.00"]>
           (<["SO4" := "Sulphate (SO₄): 0.00 mg/L"]>
              (<["NO3" := "Nitrate (NO₃): 0.00 mg/L"]> ∅)))
        (set_date_entry "" (set_temp_entry "" s)).
Proof.
  unfold __init__, bind.
  destruct (load_model_and_scalers L new_app) as [[[]|e|x] s]; [|discriminate..].
  intros [= <-]. exists s. auto.
Qed.

Lemma init_labels_formatted (app : App) :
  __init__ L new_app = (Ok tt, app) -> labels_formatted app.
Proof.
  intros H. apply init_outcome in H as (s & _ & _ & ->).
  repeat split; exists (S754_zero false); reflexivity.
Qed.

Lemma init_initialised (app : App) :
  __init__ L new_app = (Ok tt, app) -> initialised app.
Proof.
  intros H. apply init_outcome in H as (s & Hok & Hs & ->).
  destruct (load_returns_outcome L new_app s)
    as (m & xs & ys & _ & _ & _ & Hm & Hx & Hy & _).
  { subst s. destruct (load_model_and_scalers L new_app) as [r s'].
    cbn in Hok. now subst r. }
  unfold initialised.
  cbn [model X_scaler y_scaler temp_entry date_entry set_result_vars
       set_date_entry set_temp_entry].
  rewrite Hm, Hx, Hy. repeat split; eauto.
Qed.

Lemma dispatch_preserves (P : App -> Prop) (ev : user_event) :
  log_stable P -> set_stable P ->
  (forall text app, P app -> P (set_temp_entry text app)) ->
  (forall text app, P app -> P (set_date_entry text app)) ->
  preserves P (dispatch L ev).
Proof.
  intros Hlog Hset Ht Hd. destruct ev as [text|text|]; cbn [dispatch].
  - intros app H. now apply Ht.
  - intros app H. now apply Hd.
  - now apply preserves_predict_water_quality.
Qed.

(** In every reachable state the attributes read by the handler are
    set. *)
Lemma reachable_initialised (app : App) :
  reachable L app -> initialised app.
Proof.
  induction 1 as [app Hinit | app ev _ IH].
  - now apply init_initialised.
  - revert IH. apply dispatch_preserves.
    + apply initialised_log_stable.
    + apply initialised_set_stable.
    + intros text s (Hm & Hx & Hy & _ & Hd & H0 & H1 & H2).
      repeat split; try assumption. now exists text.
    + intros text s (Hm & Hx & Hy & Ht & _ & H0 & H1 & H2).
      repeat split; try assumption. now exists text.
Qed.

Lemma reachable_labels_formatted (app : App) :
  reachable L app -> labels_formatted app.
Proof.
  induction 1 as [app Hinit | app ev _ IH].
  - now apply init_labels_formatted.
  - revert IH. apply dispatch_preserves.
    + apply labels_formatted_log_stable.
    + apply labels_formatted_set_stable.
    + intros text s H. exact H.
    + intros text s H. exact H.
Qed.

Lemma reachable_run (evs : list user_event) (app : App) :
  reachable L app -> reachable L (run L evs app).
Proof.
  revert app. induction evs as [|ev evs IH]; intros app H; cbn [run].
  - exact H.
  - apply IH. now apply reachable_step.
Qed.

(** C10, as the program has it.  In every reachable state, after
    [create_ui] and after any number of edits and clicks, each label is
    its literal text around a binary64 value printed by [.2f], with the
    unit [mg/L] for nitrate and sulphate and none for pH; right after
    [create_ui] the three numbers read [0.00]; the three labels show
    exactly two decimal places if and only if the three values are
    finite, and a value that is not finite is shown as [nan], [inf] or
    [-inf]. *)
Theorem labels_formatted_in_reachable_states (app : App) :
  reachable L app ->
  (__init__ L new_app = (Ok tt, app) ->
   label app "NO3" = Some "Nitrate (NO₃): 0.00 mg/L" /\
   label app "SO4" = Some "Sulphate (SO₄): 0.00 mg/L" /\
   label app "pH" = Some "pH Value: 0.00") /\
  exists v0 v1 v2,
    label app "NO3" = Some ("Nitrate (NO₃): " ++ format_2f v0 ++ " mg/L")%string /\
    label app "SO4" = Some ("Sulphate (SO₄): " ++ format_2f v1 ++ " mg/L")%string /\
    label app "pH" = Some ("pH Value: " ++ format_2f v2)%string /\
    labels_show_two_decimals app =
      is_finite v0 && is_finite v1 && is_finite v2 /\
    (forall v, is_finite v = false ->
               In (format_2f v) ["nan"; "inf"; "-inf"]%string).
Proof.
  intros H. split.
  { intros Hinit. apply init_outcome in Hinit as (s & _ & _ & ->).
    repeat split; reflexivity. }
  apply reachable_labels_formatted in H as ([v0 H0] & [v1 H1] & [v2 H2]).
  exists v0, v1, v2. repeat split; try assumption.
  - unfold labels_show_two_decimals, label_shows_two_decimals.
    rewrite H0, H1, H2.
    rewrite <- (append_empty_r (format_2f v2)) at 1.
    rewrite !shows_two_decimals_app, !two_decimals_format_2f. reflexivity.
  - intros v Hv. destruct v as [s|[]| |s m e]; cbn in Hv |- *;
      try discriminate; auto.
Qed.

End Reachable.

(** C10, as the claim states it, fails: with the temperature text [nan],
    an identity scaler and a model that returns its first three inputs,
    the nitrate label shows [nan]. *)
Lemma labels_two_decimals_fails_on_nan :
  reachable Demo.libs (Demo.clicked Demo.libs "nan" "2015/03") /\
  label (Demo.clicked Demo.libs "nan" "2015/03") "NO3"
    = Some "Nitrate (NO₃): nan mg/L" /\
  labels_show_two_decimals (Demo.clicked Demo.libs "nan" "2015/03") = false.
Proof.
  split; [|split; vm_compute; reflexivity].
  apply reachable_run. apply reachable_init. reflexivity.
Qed.

(** * The geometry of the month encoding *)

(** Comparison of two closed rationals, by computation. *)
Ltac Q_compute :=
  first [ apply Qle_bool_iff; vm_compute; reflexivity
        | vm_compute; reflexivity ].

Section Geometry.
Local Open Scope R_scope.

(** The angle of a month, in the real numbers. *)
Lemma month_angle_real (m : Z) :
  month_angle real_numeric m = IZR m * (PI / 6).
Proof. unfold month_angle, real_numeric; cbn. field. Qed.

Lemma month_point_real (m : Z) :
  month_point m = (sin (IZR m * (PI / 6)), cos (IZR m * (PI / 6))).
Proof.
  unfold month_point, sin_of_month, cos_of_month.
  rewrite month_angle_real. reflexivity.
Qed.

(** The chord between two points of the unit circle. *)
Lemma chord (a b : R) :
  Rsqr (sin a - sin b) + Rsqr (cos a - cos b) = 2 - 2 * cos (a - b).
Proof.
  rewrite cos_minus.
  pose proof (sin2_cos2 a) as Ha. pose proof (sin2_cos2 b) as Hb.
  unfold Rsqr in *. nra.
Qed.

Lemma distance_months (m n : Z) :
  distance (month_point m) (month_point n) =
  sqrt (2 - 2 * cos (IZR (m - n) * (PI / 6))).
Proof.
  unfold distance. rewrite !month_point_real. cbn [fst snd].
  rewrite chord, minus_IZR.
  replace (IZR m * (PI / 6) - IZR n * (PI / 6))
    with ((IZR m - IZR n) * (PI / 6)) by ring.
  reflexivity.
Qed.

(** Two consecutive months, December and January included, over the
    real numbers. *)
Lemma distance_adjacent (m : Z) :
  distance (month_point m) (month_point (m + 1)) = sqrt (2 - sqrt 3).
Proof.
  rewrite distance_months.
  replace (m - (m + 1))%Z with (-1)%Z by lia.
  replace (-1 * (PI / 6)) with (- (PI / 6)) by ring.
  rewrite cos_neg, cos_PI6. f_equal. field.
Qed.

Lemma distance_december_january :
  distance (month_point 12) (month_point 1) = sqrt (2 - sqrt 3).
Proof.
  rewrite distance_months.
  replace (12 - 1)%Z with 11%Z by lia.
  replace (11 * (PI / 6)) with (2 * PI - PI / 6) by field.
  rewrite cos_minus, cos_2PI, sin_2PI, cos_PI6. f_equal. field.
Qed.

Lemma distance_next_month (m : Z) :
  distance (month_point m) (month_point (next_month m)) = sqrt (2 - sqrt 3).
Proof.
  unfold next_month. destruct (m =? 12)%Z eqn:Hm.
  - apply Z.eqb_eq in Hm. subst m. apply distance_december_january.
  - apply distance_adjacent.
Qed.

(** ** The encoding in binary64 *)

Lemma Q2R_Z (z : Z) : Q2R (inject_Z z) = IZR z.
Proof. unfold Q2R, inject_Z. cbn. lra. Qed.

Lemma Q2R_ulp : Q2R ulp = / 2 ^ 52.
Proof.
  unfold ulp, Q2R. cbn [Qnum Qden]. rewrite pow_IZR.
  change (2 ^ Z.of_nat 52)%Z with 4503599627370496%Z. lra.
Qed.

(** A square root between two rationals. *)
Lemma sqrt_enclosure (lo hi : Q) (x : R) :
  (0 <= lo)%Q -> (0 <= hi)%Q ->
  Q2R (lo * lo) <= x <= Q2R (hi * hi) ->
  Q2R lo <= sqrt x <= Q2R hi.
Proof.
  intros Hlo Hhi [H1 H2].
  apply Qle_Rle in Hlo, Hhi.
  change 0%Q with (inject_Z 0) in Hlo, Hhi. rewrite Q2R_Z in Hlo, Hhi.
  rewrite Q2R_mult in H1, H2. split.
  - rewrite <- (sqrt_square (Q2R lo)) at 1 by assumption.
    now apply sqrt_le_1_alt.
  - rewrite <- (sqrt_square (Q2R hi)) by assumption.
    now apply sqrt_le_1_alt.
Qed.

Lemma sqrt_3_enclosure : Q2R sqrt3_lo <= sqrt 3 <= Q2R sqrt3_hi.
Proof.
  apply sqrt_enclosure; [Q_compute | Q_compute |].
  rewrite <- (Q2R_Z 3). split; apply Qle_Rle; Q_compute.
Qed.

Lemma side_enclosure : Q2R side_lo <= sqrt (2 - sqrt 3) <= Q2R side_hi.
Proof.
  destruct sqrt_3_enclosure as [Hl Hh].
  apply sqrt_enclosure; [Q_compute | Q_compute |].
  assert (H1 : Q2R (side_lo * side_lo) <= Q2R (inject_Z 2 - sqrt3_hi))
    by (apply Qle_Rle; Q_compute).
  assert (H2 : Q2R (inject_Z 2 - sqrt3_lo) <= Q2R (side_hi * side_hi))
    by (apply Qle_Rle; Q_compute).
  rewrite Q2R_minus, Q2R_Z in H1, H2. lra.
Qed.

(** The distance between two computed points is the square root of a
    rational. *)
Lemma distance_float_point (L : Libs) (m n : Z) :
  distance (float_point L m) (float_point L n) =
  sqrt (Q2R (sq_distance (float_point_Q L m) (float_point_Q L n))).
Proof.
  unfold distance, float_point, sq_distance, Rsqr. cbn [fst snd].
  rewrite Q2R_plus, !Q2R_mult, !Q2R_minus. reflexivity.
Qed.

Lemma months_1_to_12 (m : Z) :
  (1 <= m <= 12)%Z ->
  In m [1; 2; 3; 4; 5; 6; 7; 8; 9; 10; 11; 12]%Z.
Proof. intros H. cbn. lia. Qed.

(** With the tabulated sine and cosine, the distance between the
    computed points of a month and of the next one is within three units
    in the last place of the side of the dodecagon. *)
Lemma float_distance_enclosure (m : Z) :
  (1 <= m <= 12)%Z ->
  Q2R (side_lo - 3 * ulp) <=
  distance (float_point Demo.libs_numpy m)
           (float_point Demo.libs_numpy (next_month m)) <=
  Q2R (side_hi + 3 * ulp).
Proof.
  intros H. rewrite distance_float_point.
  apply sqrt_enclosure; [Q_compute | Q_compute |].
  apply months_1_to_12 in H. cbn [In] in H.
  repeat (destruct H as [<-|H]; [split; apply Qle_Rle; Q_compute|]).
  destruct H.
Qed.

Lemma float_point_on_circle (m : Z) :
  (1 <= m <= 12)%Z ->
  float_point_is_finite Demo.libs_numpy m = true /\
  Rabs (Rsqr (fst (float_point Demo.libs_numpy m)) +
        Rsqr (snd (float_point Demo.libs_numpy m)) - 1) <= / 2 ^ 52.
Proof.
  intros H. apply months_1_to_12 in H. cbn [In] in H.
  rewrite <- Q2R_ulp. unfold float_point, Rsqr. cbn [fst snd].
  rewrite <- (Q2R_Z 1), <- !Q2R_mult, <- Q2R_plus, <- Q2R_minus.
  repeat (destruct H as [<-|H];
          [split; [vm_compute; reflexivity|];
           apply Rabs_le; rewrite <- Q2R_opp; split; apply Qle_Rle; Q_compute|]).
  destruct H.
Qed.

(** C9. Read over the real numbers, the encoding sends month [m] to
    [(sin (2*pi*m/12), cos (2*pi*m/12))], a point of the unit circle; the
    distance between the points of two consecutive months is the same
    for all of them, and it is also the distance between December (12)
    and January (1); this distance is [sqrt (2 - sqrt 3)], about 0.52,
    where two opposite months are at distance 2.  In binary64, with the
    sine and the cosine rounded to nearest, the two numbers computed for
    a month from 1 to 12 are finite, their point is within [2^-52] of
    the unit circle, and its distance to the point of the next month
    differs from the real one by at most [2^-50]: the months are
    equidistant up to rounding, and not exactly, see
    [binary64_months_not_equidistant]. *)
Theorem consecutive_months_equidistant :
  (forall m : Z,
     month_point m = (sin (2 * PI * IZR m / 12), cos (2 * PI * IZR m / 12))) /\
  (forall m : Z,
     Rsqr (fst (month_point m)) + Rsqr (snd (month_point m)) = 1) /\
  (forall m : Z,
     distance (month_point m) (month_point (m + 1)) =
     distance (month_point 12) (month_point 1)) /\
  distance (month_point 12) (month_point 1) = sqrt (2 - sqrt 3) /\
  distance (month_point 12) (month_point 6) = 2 /\
  (forall m : Z,
     (1 <= m <= 12)%Z ->
     float_point_is_finite Demo.libs_numpy m = true /\
     Rabs (Rsqr (fst (float_point Demo.libs_numpy m)) +
           Rsqr (snd (float_point Demo.libs_numpy m)) - 1) <= / 2 ^ 52 /\
     Rabs (distance (float_point Demo.libs_numpy m)
                    (float_point Demo.libs_numpy (next_month m)) -
           distance (month_point m) (month_point (next_month m)))
     <= / 2 ^ 50).
Proof.
  split; [intros m; reflexivity|].
  repeat apply conj.
  - intros m. rewrite month_point_real. cbn [fst snd]. apply sin2_cos2.
  - intros m. now rewrite distance_adjacent, distance_december_january.
  - apply distance_december_january.
  - rewrite distance_months.
    replace (12 - 6)%Z with 6%Z by lia.
    replace (6 * (PI / 6)) with PI by field.
    rewrite cos_PI.
    replace (2 - 2 * -1) with (Rsqr 2) by (unfold Rsqr; ring).
    apply sqrt_Rsqr. lra.
  - intros m Hm.
    destruct (float_point_on_circle m Hm) as [Hfin Hcirc].
    repeat apply conj; [exact Hfin | exact Hcirc |].
    rewrite distance_next_month.
    pose proof (float_distance_enclosure m Hm) as [Hd1 Hd2].
    pose proof side_enclosure as [Hs1 Hs2].
    assert (He : Q2R (inject_Z 4 * ulp) = / 2 ^ 50).
    { rewrite Q2R_mult, Q2R_Z, Q2R_ulp. field. }
    assert (H1 : Q2R (side_hi + 3 * ulp - side_lo) <= Q2R (inject_Z 4 * ulp))
      by (apply Qle_Rle; Q_compute).
    assert (H2 : Q2R (side_hi - (side_lo - 3 * ulp)) <= Q2R (inject_Z 4 * ulp))
      by (apply Qle_Rle; Q_compute).
    rewrite He in H1, H2. rewrite !Q2R_minus in H1, H2.
    apply Rabs_le. lra.
Qed.

End Geometry.

(** * The theorems on concrete runs *)

(** 21.5 degrees in March 2015: the row passed to the scaler. *)
Lemma feature_vector_witness :
  exists rest,
    log (snd (predict_water_quality Demo.libs Demo.sample)) =
    (log Demo.sample ++
     Transform [input_row Demo.libs Demo.t21_5 Demo.march_2015]
     :: rest)%list.
Proof.
  exact (proj2 (feature_vector Demo.libs Demo.sample "21.5" "2015/03"
                  Demo.t21_5 Demo.march_2015 Demo.identity_scaler
                  eq_refl eq_refl eq_refl eq_refl eq_refl)).
Defined.

(** December and January in binary64: the distance between the two
    computed points is the real one up to [2^-50]. *)
Lemma consecutive_months_equidistant_witness :
  (Rabs (distance (float_point Demo.libs_numpy 12)
                  (float_point Demo.libs_numpy 1) -
         distance (month_point 12) (month_point 1)) <= / 2 ^ 50)%R.
Proof.
  exact (proj2 (proj2
           (proj2 (proj2 (proj2 (proj2 (proj2
              consecutive_months_equidistant))))
              12 ltac:(lia)))).
Defined.

(** C9, as the claim states it, fails in binary64: with the sine and
    the cosine rounded to nearest, the points computed for October and
    November are closer to each other than those computed for December
    and January. *)
Lemma binary64_months_not_equidistant :
  (distance (float_point Demo.libs_numpy 10) (float_point Demo.libs_numpy 11) <
   distance (float_point Demo.libs_numpy 12) (float_point Demo.libs_numpy 1))%R.
Proof.
  rewrite !distance_float_point. apply sqrt_lt_1_alt. split.
  - rewrite <- (Q2R_Z 0). apply Qle_Rle. Q_compute.
  - apply Qlt_Rlt. vm_compute. reflexivity.
Qed.

(** The same input through an identity scaler and the echo model: the
    handler returns and the nitrate label shows the temperature. *)
Lemma predict_call_chain_witness :
  fst (predict_water_quality Demo.libs Demo.sample) = Ok tt /\
  label (snd (predict_water_quality Demo.libs Demo.sample)) "NO3"
    = Some "Nitrate (NO₃): 21.50 mg/L".
Proof.
  epose proof (predict_call_chain Demo.libs Demo.sample "21.5" "2015/03"
                 Demo.t21_5 Demo.march_2015 Demo.identity_scaler
                 Demo.echo_model Demo.identity_scaler _ _ _ _ _ _ _ _
                 eq_refl eq_refl eq_refl eq_refl eq_refl eq_refl) as H.
  do 3 specialize (H ltac:(eexists; vm_compute; reflexivity)).
  specialize (H eq_refl eq_refl).
  do 7 specialize (H ltac:(vm_compute; reflexivity)).
  cbv zeta in H. rewrite H. split; vm_compute; reflexivity.
Defined.


(** The scaler files are missing: the model is loaded, the first scaler
    load raises, the dialog is shown and the exception raised again. *)
Lemma load_failure_is_reported_and_raised_witness :
  exists app',
    load_model_and_scalers Demo.libs_missing_scaler new_app
      = (Raise (OtherError "FileNotFoundError"
                  "[Errno 2] No such file or directory: 'X_scaler.joblib'"),
         app') /\
    __init__ Demo.libs_missing_scaler new_app
      = (Raise (OtherError "FileNotFoundError"
                  "[Errno 2] No such file or directory: 'X_scaler.joblib'"),
         app') /\
    log app' =
      [LoadModel "/opt/app/water_quality_model.h5";
       JoblibLoad "/opt/app/X_scaler.joblib";
       Showerror "Model Loading Error"
         "Could not load model or scalers: [Errno 2] No such file or directory: 'X_scaler.joblib'"] /\
    result_vars app' = None.
Proof.
  apply (proj1 (load_failure_is_reported_and_raised
                  Demo.libs_missing_scaler new_app)
               _ _
               (X_scaler_load_raises Demo.libs_missing_scaler
                  Demo.echo_model _ eq_refl eq_refl)).
Defined.



(** A temperature that is not a number leaves the labels as they were. *)
Lemma input_error_keeps_results_witness :
  result_vars
    (snd (predict_water_quality Demo.libs
            (Demo.filled Demo.libs "abc" "2015/03")))
  = result_vars (Demo.filled Demo.libs "abc" "2015/03").
Proof.
  apply (input_error_keeps_results Demo.libs
           (Demo.filled Demo.libs "abc" "2015/03")
           [Showerror "Input Error" "Please enter valid temperature and date."]
           "Please enter valid temperature and date.").
  - vm_compute. reflexivity.
  - left. reflexivity.
Defined.

(** The temperature [inf] is parsed, and a scaler that refuses it with a
    [ValueError] gives the input-error dialog. *)
Lemma late_ValueError_is_input_error_witness :
  fst (predict_water_quality Demo.libs_checking
         (Demo.filled Demo.libs_checking "inf" "2015/03")) = Ok tt /\
  drop (length (log (Demo.filled Demo.libs_checking "inf" "2015/03")))
       (log (snd (predict_water_quality Demo.libs_checking
                    (Demo.filled Demo.libs_checking "inf" "2015/03")))) =
  [Transform [input_row Demo.libs_checking (inf false) Demo.march_2015];
   Showerror "Input Error" "Please enter valid temperature and date."].
Proof.
  assert (Hst : stage_raises
                  (Demo.filled Demo.libs_checking "inf" "2015/03")
                  [input_row Demo.libs_checking (inf false) Demo.march_2015]
                  (ValueError
                     "Input X contains infinity or a value too large for dtype('float64').")
                  [Transform [input_row Demo.libs_checking
                                (inf false) Demo.march_2015]])
    by (apply (scaling_raises _ _ Demo.checking_scaler); reflexivity).
  destruct (late_ValueError_is_input_error Demo.libs_checking
              (Demo.filled Demo.libs_checking "inf" "2015/03")
              "inf" "2015/03" (inf false) Demo.march_2015
              "Input X contains infinity or a value too large for dtype('float64')."
              [Transform [input_row Demo.libs_checking
                            (inf false) Demo.march_2015]]
              eq_refl eq_refl eq_refl eq_refl Hst)
    as [Heq _].
  rewrite Heq. split; vm_compute; reflexivity.
Defined.

(** The temperature [nan] reaches the scaler. *)
Lemma temperature_is_not_range_checked_witness :
  exists others rest,
    input_row Demo.libs nan Demo.march_2015 = nan :: others /\
    log (snd (predict_water_quality Demo.libs
                (Demo.filled Demo.libs "nan" "2015/03"))) =
    (log (Demo.filled Demo.libs "nan" "2015/03")
     ++ Transform [nan :: others] :: rest)%list.
Proof.
  apply (proj1
           (proj2 (proj2 (proj2 (proj2
              (temperature_is_not_range_checked Demo.libs))))
              (Demo.filled Demo.libs "nan" "2015/03") "nan" "2015/03" nan
              Demo.march_2015 Demo.identity_scaler
              eq_refl eq_refl eq_refl eq_refl eq_refl)).
Defined.

(** C8, as the claim states it, fails: the temperature [inf] is
    accepted by [float], and with a scaler that refuses an infinite
    input the click ends on the input-error path: the dialog is shown
    and the model is not called. *)
Lemma infinite_temperature_takes_input_error_path :
  py_float "inf" = Some (inf false) /\
  fst (predict_water_quality Demo.libs_checking
         (Demo.filled Demo.libs_checking "inf" "2015/03")) = Ok tt /\
  drop (length (log (Demo.filled Demo.libs_checking "inf" "2015/03")))
       (log (snd (predict_water_quality Demo.libs_checking
                    (Demo.filled Demo.libs_checking "inf" "2015/03")))) =
  [Transform [input_row Demo.libs_checking (inf false) Demo.march_2015];
   Showerror "Input Error" "Please enter valid temperature and date."].
Proof. repeat split; vm_compute; reflexivity. Qed.

(** The labels after one successful click. *)
Lemma labels_formatted_in_reachable_states_witness :
  (__init__ Demo.libs new_app
   = (Ok tt, Demo.clicked Demo.libs "21.5" "2015/03") ->
   label (Demo.clicked Demo.libs "21.5" "2015/03") "NO3"
     = Some "Nitrate (NO₃): 0.00 mg/L" /\
   label (Demo.clicked Demo.libs "21.5" "2015/03") "SO4"
     = Some "Sulphate (SO₄): 0.00 mg/L" /\
   label (Demo.clicked Demo.libs "21.5" "2015/03") "pH"
     = Some "pH Value: 0.00") /\
  exists v0 v1 v2,
    label (Demo.clicked Demo.libs "21.5" "2015/03") "NO3"
      = Some ("Nitrate (NO₃): " ++ format_2f v0 ++ " mg/L")%string /\
    label (Demo.clicked Demo.libs "21.5" "2015/03") "SO4"
      = Some ("Sulphate (SO₄): " ++ format_2f v1 ++ " mg/L")%string /\
    label (Demo.clicked Demo.libs "21.5" "2015/03") "pH"
      = Some ("pH Value: " ++ format_2f v2)%string /\
    labels_show_two_decimals (Demo.clicked Demo.libs "21.5" "2015/03") =
      is_finite v0 && is_finite v1 && is_finite v2 /\
    (forall v, is_finite v = false ->
               In (format_2f v) ["nan"; "inf"; "-inf"]%string).
Proof.
  apply (labels_formatted_in_reachable_states Demo.libs).
  apply reachable_run. apply reachable_init. reflexivity.
Defined.

(** Outside the input-error path the results can change before a dialog:
    with a model of two outputs, nitrate and sulphate are set, then the
    missing third column raises [IndexError] and the dialog is
    [Prediction Error]. *)
Example short_output_sets_two_labels :
  let L := Demo.libs_with (Ok Demo.short_model) (Ok Demo.identity_scaler) in
  let app := Demo.clicked L "21.5" "2015/03" in
  label app "NO3" = Some "Nitrate (NO₃): 21.50 mg/L" /\
  label app "pH" = Some "pH Value: 0.00" /\
  last (log app)
    = Some (Showerror "Prediction Error"
              "index 2 is out of bounds for axis 0 with size 2").
Proof. vm_compute. auto. Qed.

(** * Further properties of the handler *)

Section Click.
Variable L : Libs.

(** X5. One click returns or is cut short by an exit signal.  When it
    returns, it has added to the log either the three updates of the
    result variables, nitrate, sulphate and pH in this order, and no
    dialog, or exactly one dialog, which comes last, after the updates
    of a proper initial part of the three variables; with the
    [Input Error] dialog no variable is updated.  When it is cut short
    by an exit signal, it has shown no dialog and updated no variable. *)
Theorem click_outcome_shape (app : App) :
  exists new,
    log (snd (predict_water_quality L app)) = (log app ++ new)%list /\
    ((fst (predict_water_quality L app) = Ok tt /\
      shown_dialogs new = [] /\ set_keys new = ["NO3"; "SO4"; "pH"]) \/
     (fst (predict_water_quality L app) = Ok tt /\
      exists title message rest,
        shown_dialogs new = [(title, message)] /\
        last new = Some (Showerror title message) /\
        (title = "Input Error" \/ title = "Prediction Error") /\
        (set_keys new ++ rest)%list = ["NO3"; "SO4"; "pH"] /\
        rest <> [] /\
        (title = "Input Error" -> set_keys new = [])) \/
     (exists x,
        fst (predict_water_quality L app) = Exit x /\
        shown_dialogs new = [] /\ set_keys new = [])).
Proof.
  destruct app as [mo xo yo te de rv lg].
  match goal with
  | |- exists new, log (snd ?o) = _ /\ _ => pattern o
  end.
  apply wp_outcome. cbn [fst snd].
  unfold predict_water_quality, predict_body.
  explore;
    state_unfold; eexists;
    (split; [rewrite <- ?app_assoc; reflexivity|]);
    cbn [app shown_dialogs set_keys];
    first
      [ left; repeat apply conj; reflexivity
      | right; left; split; [reflexivity|]; do 3 eexists;
        repeat apply conj;
        [ reflexivity | reflexivity
        | first [left; reflexivity | right; reflexivity]
        | reflexivity | discriminate
        | intros ?; first [reflexivity | discriminate] ]
      | right; right; eexists; repeat apply conj; reflexivity ].
Qed.

(** X4. A click never changes the loaded artifacts or the text of the
    two entries, and it neither adds nor removes a result variable. *)
Theorem click_keeps_inputs_and_artifacts (app : App) :
  model (snd (predict_water_quality L app)) = model app /\
  X_scaler (snd (predict_water_quality L app)) = X_scaler app /\
  y_scaler (snd (predict_water_quality L app)) = y_scaler app /\
  temp_entry (snd (predict_water_quality L app)) = temp_entry app /\
  date_entry (snd (predict_water_quality L app)) = date_entry app /\
  (dom <$> result_vars (snd (predict_water_quality L app)) : option (gset string))
    = dom <$> result_vars app.
Proof.
  destruct app as [mo xo yo te de rv lg].
  match goal with
  | |- model (snd ?o) = _ /\ _ => pattern o
  end.
  apply wp_outcome. cbn [snd].
  unfold predict_water_quality, predict_body.
  explore; state_unfold; repeat apply conj; try reflexivity;
    cbn [fmap option_fmap option_map]; f_equal;
    rewrite ?dom_insert_lookup_L by eauto; reflexivity.
Qed.

End Click.

(** Symbolic execution along the path that the hypotheses select. *)
Ltac wp_run :=
  repeat first
    [ wp_step
    | match goal with
      | H : ?x = _ |- match ?x with _ => _ end =>
          rewrite H; cbv beta iota zeta
      end ].

Section Lifecycle.
Variable L : Libs.

(** X1. When [__init__] returns, its object holds the model and the
    two scalers that the three loads returned, loaded in the order model,
    input scaler, output scaler and without any dialog; both entries are
    empty and the three labels read 0.00. *)
Theorem init_success_state (app : App) :
  __init__ L new_app = (Ok tt, app) ->
  exists m xs ys,
    load_model L (os_path_join L (base_path L) "water_quality_model.h5")
      = Ok m /\
    joblib_load L (os_path_join L (base_path L) "X_scaler.joblib") = Ok xs /\
    joblib_load L (os_path_join L (base_path L) "y_scaler.joblib") = Ok ys /\
    app =
      mkApp (Some m) (Some xs) (Some ys) (Some "") (Some "")
        (Some (<["pH" := "pH Value: 0.00"]>
                 (<["SO4" := "Sulphate (SO₄): 0.00 mg/L"]>
                    (<["NO3" := "Nitrate (NO₃): 0.00 mg/L"]> ∅))))
        [LoadModel (os_path_join L (base_path L) "water_quality_model.h5");
         JoblibLoad (os_path_join L (base_path L) "X_scaler.joblib");
         JoblibLoad (os_path_join L (base_path L) "y_scaler.joblib")].
Proof.
  intros H. apply init_outcome in H as (s & Hok & Hs & ->).
  destruct (load_returns_outcome L new_app s)
    as (m & xs & ys & Hm & Hx & Hy & Hsm & Hsx & Hsy & Hlog).
  { subst s. destruct (load_model_and_scalers L new_app) as [r s'].
    cbn in Hok. now subst r. }
  exists m, xs, ys. repeat split; try assumption.
  clear Hs. destruct s as [mo xo yo te de rv lg].
  cbn in Hsm, Hsx, Hsy, Hlog. subst. reflexivity.
Qed.

(** X3. In every reachable state the model, the two scalers, the two
    entries and the three result variables exist, so a click never fails
    on a missing attribute or a missing key. *)
Theorem reachable_state_is_initialised (app : App) :
  reachable L app ->
  exists mdl xs ys ts ds vars,
    model app = Some mdl /\ X_scaler app = Some xs /\
    y_scaler app = Some ys /\
    temp_entry app = Some ts /\ date_entry app = Some ds /\
    result_vars app = Some vars /\
    is_Some (vars !! "NO3") /\ is_Some (vars !! "SO4") /\
    is_Some (vars !! "pH").
Proof.
  intros H. apply reachable_initialised in H.
  destruct H as ([mdl Hm] & [xs Hx] & [ys Hy] & [ts Ht] & [ds Hd] &
                 H0 & H1 & H2).
  unfold label in *.
  destruct (result_vars app) as [vars|];
    [|destruct H0 as [? H0]; discriminate].
  exists mdl, xs, ys, ts, ds, vars. auto 10.
Qed.

(** X9. A click on the form as [__init__] leaves it, with both entries
    empty, returns after the [Input Error] dialog, the one event it adds
    to the log, and changes no attribute. *)
Theorem click_on_fresh_form (app : App) :
  __init__ L new_app = (Ok tt, app) ->
  predict_water_quality L app =
    (Ok tt,
     mkApp (model app) (X_scaler app) (y_scaler app)
       (temp_entry app) (date_entry app) (result_vars app)
       (log app ++
        [Showerror "Input Error" "Please enter valid temperature and date."])).
Proof.
  intros H. apply init_outcome in H as (s & _ & _ & ->).
  destruct s as [mo xo yo te de rv lg].
  match goal with |- ?lhs = _ => pattern lhs end. apply wp_outcome.
  unfold predict_water_quality, predict_body.
  wp_step. wp_step.
  change (py_float "") with (@None float). cbv beta iota.
  wp_step. reflexivity.
Qed.

End Lifecycle.

Section Output.
Variable L : Libs.

(** X8. An exception other than [ValueError] raised by scaling,
    inference or inverse scaling ends the click normally with the
    [Prediction Error] dialog, whose message is the text of the
    exception: the dialog is the one event added after the calls made so
    far, no [Input Error] dialog is among the events of the click, and
    no attribute changes. *)
Theorem stage_failure_is_prediction_error (app : App) ts ds t d e evs :
  temp_entry app = Some ts -> date_entry app = Some ds ->
  py_float ts = Some t -> strptime ds = Some d ->
  stage_raises app [input_row L t d] e evs ->
  is_ValueError e = false ->
  predict_water_quality L app =
    (Ok tt,
     mkApp (model app) (X_scaler app) (y_scaler app)
       (temp_entry app) (date_entry app) (result_vars app)
       (log app ++ evs ++ [Showerror "Prediction Error" (str e)])) /\
  shown_dialogs
    (drop (length (log app)) (log (snd (predict_water_quality L app)))) =
  [("Prediction Error", str e)].
Proof.
  intros Hte Hde Hf Hs Hst He.
  rewrite (stage_exception_dialog L app ts ds t d e evs Hte Hde Hf Hs Hst).
  rewrite He. split; [reflexivity|].
  cbn [snd log]. rewrite drop_app_length.
  inversion Hst; reflexivity.
Qed.

(** X6. When the three stages return an output without the element
    [prediction[0][2]] (no row, or a row 0 of fewer than three columns),
    the handler sets the labels whose column exists, in order, leaves the
    others as they were, and ends with the [Prediction Error] dialog. *)
Theorem short_output_outcome (app : App) ts ds t d xs mdl ys vars xn pn
    prediction :
  temp_entry app = Some ts -> date_entry app = Some ds ->
  X_scaler app = Some xs -> model app = Some mdl ->
  y_scaler app = Some ys -> result_vars app = Some vars ->
  is_Some (vars !! "NO3") -> is_Some (vars !! "SO4") ->
  is_Some (vars !! "pH") ->
  py_float ts = Some t -> strptime ds = Some d ->
  transform xs [input_row L t d] = Ok xn ->
  predict mdl xn = Ok pn ->
  inverse_transform ys pn = Ok prediction ->
  cell prediction 2 = None ->
  let app' := snd (predict_water_quality L app) in
  fst (predict_water_quality L app) = Ok tt /\
  (exists message,
     last (log app') = Some (Showerror "Prediction Error" message)) /\
  label app' "NO3" =
    match cell prediction 0 with
    | Some p => Some ("Nitrate (NO₃): " ++ format_2f p ++ " mg/L")%string
    | None => label app "NO3"
    end /\
  label app' "SO4" =
    match cell prediction 1 with
    | Some p => Some ("Sulphate (SO₄): " ++ format_2f p ++ " mg/L")%string
    | None => label app "SO4"
    end /\
  label app' "pH" = label app "pH".
Proof.
  intros Hte Hde Hxs Hmdl Hys Hrv [v0 Hv0] [v1 Hv1] [v2 Hv2] Hf Hs
         Hx Hp Hi Hc2 app'. subst app'.
  destruct app as [mo xo yo te de rv lg];
    cbn in Hte, Hde, Hxs, Hmdl, Hys, Hrv; subst.
  unfold input_row in Hx. unfold cell in *.
  match goal with |- fst ?o = _ /\ _ => pattern o end. apply wp_outcome.
  cbn [fst snd].
  unfold predict_water_quality, predict_body.
  wp_run.
  destruct (prediction !! 0%nat) as [row|] eqn:Hrow.
  2:{ wp_run. state_unfold. unfold label. cbn [result_vars].
      rewrite last_snoc. eauto 10. }
  destruct (row !! 0%nat) as [p0|] eqn:H0.
  2:{ assert (H1 : row !! 1%nat = None)
        by (apply lookup_ge_None in H0; apply lookup_ge_None; lia).
      rewrite H1.
      wp_run. state_unfold. unfold label. cbn [result_vars].
      rewrite last_snoc. eauto 10. }
  wp_step. rewrite lookup_insert_ne, Hv1 by done. cbv beta iota.
  wp_step. rewrite Hrow. cbv beta iota.
  destruct (row !! 1%nat) as [p1|] eqn:H1.
  2:{ wp_run. state_unfold. unfold label. cbn [result_vars].
      rewrite last_snoc, lookup_insert_eq, !lookup_insert_ne by done.
      eauto 10. }
  wp_step. rewrite !lookup_insert_ne, Hv2 by done. cbv beta iota.
  wp_step. rewrite Hrow, Hc2. cbv beta iota.
  wp_run. state_unfold. unfold label. cbn [result_vars].
  rewrite last_snoc.
  rewrite (lookup_insert_ne _ "SO4" "NO3"), !lookup_insert_eq,
    !lookup_insert_ne by done.
  eauto 10.
Qed.

End Output.

(** * Further properties of the two parsers *)

Lemma digit_of_value (c : ascii) (k : nat) :
  is_digit c = true -> digit_value c = Z.of_nat k ->
  c = ascii_of_nat (48 + k).
Proof.
  unfold is_digit, digit_value. intros H Hk.
  apply andb_true_iff in H as [H1 H2].
  apply Nat.leb_le in H1. apply Nat.leb_le in H2.
  rewrite <- (ascii_nat_embedding c). f_equal. lia.
Qed.

Lemma forallb_is_digit_4 (y : list ascii) :
  length y = 4%nat -> forallb is_digit y = true ->
  exists y1 y2 y3 y4, y = [y1; y2; y3; y4] /\
    is_digit y1 = true /\ is_digit y2 = true /\
    is_digit y3 = true /\ is_digit y4 = true.
Proof.
  destruct y as [|y1 [|y2 [|y3 [|y4 [|]]]]]; try discriminate.
  intros _ H. cbn [forallb] in H. rewrite !andb_true_iff in H.
  destruct H as (H1 & H2 & H3 & H4 & _). eauto 10.
Qed.

(** X10. On ASCII text, [strptime] with the format [%Y/%m] accepts
    exactly the texts made of four digits, a slash and one or two digits, where the four
    digits are a year of at least 1 and the last digits a month from 1 to
    12; the date returned holds these two numbers.  In particular a text
    with a space, a sign or any other separator is rejected. *)
Theorem strptime_accepts_exactly (s : string) (d : date) :
  is_ascii s = true ->
  strptime s = Some d <->
  exists y m,
    list_ascii_of_string s = (y ++ "/"%char :: m)%list /\
    length y = 4%nat /\ (length m = 1%nat \/ length m = 2%nat) /\
    forallb is_digit y = true /\ forallb is_digit m = true /\
    year d = digits_value y /\ month d = digits_value m /\
    1 <= year d /\ 1 <= month d <= 12.
Proof.
  intros _. split.
  - intros H. pose proof (strptime_range s d H) as [Hm Hy].
    revert H. unfold strptime.
    destruct (list_ascii_of_string s) as [|y1 [|y2 [|y3 [|y4 [|c r]]]]];
      try discriminate.
    destruct (c =? "/")%char eqn:Hc.
    2:{ destruct c as [[] [] [] [] [] [] [] []]; try discriminate Hc;
        discriminate. }
    apply Ascii.eqb_eq in Hc. subst c.
    destruct (forallb is_digit [y1; y2; y3; y4]) eqn:Hdig; [|discriminate].
    destruct (match_month r) as [[mv [|c r']]|] eqn:Hmm; try discriminate.
    destruct (1 <=? digits_value [y1; y2; y3; y4]) eqn:H1; [|discriminate].
    intros [= <-]. cbn [year month] in *.
    exists [y1; y2; y3; y4], r.
    assert (Hr : (length r = 1%nat \/ length r = 2%nat) /\
                 forallb is_digit r = true /\ mv = digits_value r).
    { revert Hmm.
      unfold match_month, month_10_to_12, month_01_to_09, month_1_to_9.
      destruct r as [|a [|b r]].
      - discriminate.
      - destruct (is_digit a) eqn:Ha; cbn [andb]; [|discriminate].
        destruct (1 <=? digit_value a); [|discriminate].
        intros [= <-]. cbn [forallb length]. rewrite Ha.
        unfold digits_value. cbn [fold_left]. repeat split; auto; lia.
      - destruct ((a =? "1")%char && is_digit b && (digit_value b <=? 2))
          eqn:E1.
        { intros [= <- ->].
          apply andb_true_iff in E1 as [E1 _].
          apply andb_true_iff in E1 as [Ea Hb].
          apply Ascii.eqb_eq in Ea. subst a.
          cbn [forallb length]. rewrite Hb.
          unfold digits_value. cbn [fold_left].
          repeat split; auto. }
        destruct ((a =? "0")%char && is_digit b && (1 <=? digit_value b))
          eqn:E2.
        { intros [= <- ->].
          apply andb_true_iff in E2 as [E2 _].
          apply andb_true_iff in E2 as [Ea Hb].
          apply Ascii.eqb_eq in Ea. subst a.
          cbn [forallb length]. rewrite Hb.
          unfold digits_value. cbn [fold_left].
          repeat split; auto. }
        destruct (is_digit a && (1 <=? digit_value a)); [|discriminate].
        intros Hbad; inversion Hbad. }
    destruct Hr as (Hlen & Hrd & ->).
    repeat split; auto; lia.
  - intros (y & m & Hs & Hly & Hlm & Hy & Hm & Hyv & Hmv & Hy1 & Hm1).
    destruct (forallb_is_digit_4 y Hly Hy)
      as (y1 & y2 & y3 & y4 & -> & Hd1 & Hd2 & Hd3 & Hd4).
    unfold strptime. rewrite Hs. cbn [List.app].
    cbn [forallb]. rewrite Hd1, Hd2, Hd3, Hd4. cbn [andb].
    assert (Hmm : match_month m = Some (digits_value m, [])).
    { unfold match_month, month_10_to_12, month_01_to_09, month_1_to_9.
      rewrite Hmv in Hm1. clear Hmv Hs.
      destruct m as [|a [|b [|]]]; cbn [length] in Hlm;
        try (exfalso; lia).
      - cbn [forallb] in Hm. rewrite andb_true_r in Hm.
        unfold digits_value in *. cbn [fold_left] in *.
        rewrite Hm. cbn [andb].
        replace (1 <=? digit_value a) with true
          by (symmetry; apply Z.leb_le; lia).
        repeat f_equal; lia.
      - cbn [forallb] in Hm. rewrite !andb_true_iff in Hm.
        destruct Hm as (Ha & Hb & _).
        pose proof (is_digit_value a Ha). pose proof (is_digit_value b Hb).
        unfold digits_value in *. cbn [fold_left] in *.
        rewrite Hb. cbn [andb].
        assert (Hcase : (digit_value a = 1 /\ digit_value b <= 2) \/
                        (digit_value a = 0 /\ 1 <= digit_value b)) by lia.
        destruct Hcase as [[Ha1 Hb2] | [Ha0 Hb1]].
        + rewrite (digit_of_value a 1 Ha Ha1).
          change (ascii_of_nat (48 + 1)) with "1"%char.
          cbn [Ascii.eqb Bool.eqb andb].
          replace (digit_value b <=? 2) with true
            by (symmetry; apply Z.leb_le; lia).
          repeat f_equal; lia.
        + rewrite (digit_of_value a 0 Ha Ha0).
          change (ascii_of_nat (48 + 0)) with "0"%char.
          cbn [Ascii.eqb Bool.eqb andb].
          replace (1 <=? digit_value b) with true
            by (symmetry; apply Z.leb_le; lia).
          repeat f_equal; lia. }
    rewrite Hmm. rewrite <- Hyv.
    replace (1 <=? year d) with true by (symmetry; apply Z.leb_le; lia).
    destruct d as [yy mm]. cbn [year month] in *. now subst.
Qed.

Lemma lstrip_spaces (ws s : list ascii) :
  forallb PyFloat.is_space ws = true ->
  PyFloat.lstrip (ws ++ s) = PyFloat.lstrip s.
Proof.
  induction ws as [|c ws IH]; cbn [forallb List.app]; [reflexivity|].
  intros H. apply andb_true_iff in H as [Hc Hws].
  cbn [PyFloat.lstrip]. rewrite Hc. now apply IH.
Qed.

Lemma lstrip_app (s t : list ascii) :
  PyFloat.lstrip s <> [] ->
  PyFloat.lstrip (s ++ t) = (PyFloat.lstrip s ++ t)%list.
Proof.
  induction s as [|c s IH]; cbn [PyFloat.lstrip List.app].
  - intros H. now contradiction H.
  - destruct (PyFloat.is_space c); [exact IH | reflexivity].
Qed.

Lemma lstrip_all_spaces (ws : list ascii) :
  forallb PyFloat.is_space ws = true -> PyFloat.lstrip ws = [].
Proof.
  intros H. rewrite <- (app_nil_r ws). now rewrite lstrip_spaces.
Qed.

Lemma forallb_rev {A} (f : A -> bool) (l : list A) :
  forallb f (rev l) = forallb f l.
Proof.
  induction l as [|a l IH]; [reflexivity|].
  cbn [rev forallb]. rewrite forallb_app, IH. cbn [forallb].
  rewrite andb_true_r. apply andb_comm.
Qed.

Lemma strip_spaces_around (pre s post : list ascii) :
  forallb PyFloat.is_space pre = true ->
  forallb PyFloat.is_space post = true ->
  PyFloat.strip (pre ++ s ++ post) = PyFloat.strip s.
Proof.
  intros Hpre Hpost. unfold PyFloat.strip.
  rewrite (lstrip_spaces pre _ Hpre).
  destruct (PyFloat.lstrip s) as [|c r] eqn:Hs.
  - assert (Hall : PyFloat.lstrip (s ++ post) = []).
    { clear Hpre. induction s as [|a s IH]; cbn [List.app].
      - now apply lstrip_all_spaces.
      - cbn [PyFloat.lstrip] in Hs |- *.
        destruct (PyFloat.is_space a); [now apply IH | discriminate]. }
    now rewrite Hall.
  - rewrite lstrip_app by (rewrite Hs; discriminate).
    rewrite Hs, rev_app_distr.
    rewrite lstrip_spaces by (now rewrite forallb_rev).
    reflexivity.
Qed.

(** X11. White space around the temperature does not matter to
    [float]: an ASCII text between any two runs of spaces, tabs, line
    feeds, vertical tabs, form feeds or carriage returns is read as the
    text alone; and a text of white space only, the empty
    text included, is rejected. *)
Theorem float_ignores_surrounding_space (pre s post : string) :
  is_ascii s = true ->
  forallb PyFloat.is_space (list_ascii_of_string pre) = true ->
  forallb PyFloat.is_space (list_ascii_of_string post) = true ->
  py_float (pre ++ s ++ post) = py_float s /\
  py_float pre = None.
Proof.
  intros _ Hpre Hpost. unfold py_float, PyFloat.parse. split.
  - rewrite !list_ascii_of_string_app.
    now rewrite strip_spaces_around.
  - unfold PyFloat.strip. rewrite (lstrip_all_spaces _ Hpre). reflexivity.
Qed.

(** * Further properties of the printed numbers *)

Lemma digit_value_digit_char (x : Z) :
  0 <= x <= 9 -> digit_value (digit_char x) = x.
Proof.
  intros H.
  assert (x = 0 \/ x = 1 \/ x = 2 \/ x = 3 \/ x = 4 \/
          x = 5 \/ x = 6 \/ x = 7 \/ x = 8 \/ x = 9) as Hx by lia.
  repeat (destruct Hx as [-> | Hx]; [reflexivity|]). now subst.
Qed.

Lemma fold_digits_of_uint (d : Decimal.uint) (acc : Z) :
  fold_left (fun a c => 10 * a + digit_value c)
            (list_ascii_of_string (NilEmpty.string_of_uint d)) acc =
  acc * 10 ^ Z.of_N (DecimalPos.Unsigned.usize d)
  + Z.of_N (DecimalPos.Unsigned.of_lu (Decimal.rev d)).
Proof.
  revert acc.
  induction d; intros acc;
    [ cbn; lia
    | cbn [NilEmpty.string_of_uint list_ascii_of_string fold_left];
      rewrite IHd;
      match goal with
      | |- context [Decimal.rev (?D d)] =>
          change (Decimal.rev (D d)) with (Decimal.revapp d (D Decimal.Nil));
          rewrite (DecimalPos.Unsigned.of_lu_revapp d (D Decimal.Nil))
      end;
      cbn [DecimalPos.Unsigned.usize DecimalPos.Unsigned.of_lu];
      rewrite N2Z.inj_succ, Z.pow_succ_r by lia;
      rewrite N2Z.inj_add, N2Z.inj_mul, N2Z.inj_pow;
      match goal with
      | |- context [digit_value ?c] =>
          let v := eval vm_compute in (digit_value c) in
          change (digit_value c) with v
      end;
      rewrite ?N.mul_0_r, ?N.add_0_r; cbn [Z.of_N]; ring .. ].
Qed.

(** The digits printed for a natural number denote this number. *)
Lemma digits_value_decimal (n : Z) :
  0 <= n -> digits_value (list_ascii_of_string (decimal n)) = n.
Proof.
  intros Hn. unfold digits_value, decimal.
  pose proof (DecimalN.Unsigned.of_to (Z.to_N n)) as Hof.
  unfold N.of_uint in Hof. rewrite DecimalPos.Unsigned.of_uint_alt in Hof.
  assert (Hnil : N.to_uint (Z.to_N n) <> Decimal.Nil).
  { destruct (Z.to_N n); cbn; [discriminate|].
    apply DecimalPos.Unsigned.to_uint_nonnil. }
  destruct (N.to_uint (Z.to_N n)) eqn:Hd; [now contradiction Hnil | ..];
    unfold NilZero.string_of_uint;
    rewrite fold_digits_of_uint, Hof; lia.
Qed.

Lemma round_half_even_div_spec (n d : Z) :
  0 <= n -> 0 < d ->
  let h := round_half_even_div n d in
  0 <= h /\
  2 * Z.abs (n - h * d) <= d /\
  (2 * Z.abs (n - h * d) = d -> Z.even h = true).
Proof.
  intros Hn Hd h. subst h. unfold round_half_even_div.
  pose proof (Z.div_mod n d ltac:(lia)) as E.
  pose proof (Z.mod_pos_bound n d Hd) as Hr.
  pose proof (Z.div_pos n d Hn Hd) as Hq.
  set (q := n / d) in *. set (r := n mod d) in *.
  assert (E1 : n - q * d = r) by lia.
  assert (E2 : n - (q + 1) * d = r - d) by lia.
  destruct (Z.compare_spec (2 * r) d) as [Heq | Hlt | Hgt].
  - destruct (Z.even q) eqn:Hev.
    + rewrite E1. repeat split; try lia. auto.
    + rewrite E2. repeat split; try lia.
      intros _. rewrite Z.add_1_r, Z.even_succ, <- Z.negb_even, Hev.
      reflexivity.
  - rewrite E1. repeat split; lia.
  - rewrite E2. repeat split; lia.
Qed.

(** X12. The number printed for a finite value with the format [.2f]
    is the value rounded to the nearest hundredth, ties to the even
    hundredth: the text is the sign, the digits of an integer part, a
    point and two digits, and the number of hundredths it denotes differs
    from a hundred times the exact binary value [m * 2^e] by at most one
    half. *)
Theorem format_2f_rounds_to_nearest (s : bool) (m : positive) (e : Z) :
  exists (ip : string) (d1 d2 : ascii) (h : Z),
    format_2f (S754_finite s m e)
      = (sign_text s ++ ip ++ "." ++ String d1 (String d2 ""))%string /\
    h = 100 * digits_value (list_ascii_of_string ip)
        + 10 * digit_value d1 + digit_value d2 /\
    0 <= digit_value d1 <= 9 /\ 0 <= digit_value d2 <= 9 /\
    (0 <= e -> h = Zpos m * 2 ^ e * 100) /\
    (e < 0 ->
     2 * Z.abs (Zpos m * 100 - h * 2 ^ (- e)) <= 2 ^ (- e) /\
     (2 * Z.abs (Zpos m * 100 - h * 2 ^ (- e)) = 2 ^ (- e) ->
      Z.even h = true)).
Proof.
  set (h := hundredths m e).
  assert (Hh : 0 <= h).
  { subst h. unfold hundredths. destruct (0 <=? e) eqn:He.
    - apply Z.leb_le in He.
      pose proof (Z.pow_nonneg 2 e ltac:(lia)). nia.
    - apply Z.leb_gt in He.
      apply round_half_even_div_spec; [lia|].
      apply Z.pow_pos_nonneg; lia. }
  pose proof (Z.mod_pos_bound (h / 10) 10 ltac:(lia)) as H1.
  pose proof (Z.mod_pos_bound h 10 ltac:(lia)) as H2.
  exists (decimal (h / 100)), (digit_char (h / 10 mod 10)),
         (digit_char (h mod 10)), h.
  rewrite digits_value_decimal by (apply Z.div_pos; lia).
  rewrite !digit_value_digit_char by lia.
  split; [reflexivity|].
  split.
  { pose proof (Z.div_mod h 10 ltac:(lia)).
    pose proof (Z.div_mod (h / 10) 10 ltac:(lia)).
    replace (h / 100) with (h / 10 / 10)
      by (rewrite Z.div_div by lia; reflexivity).
    lia. }
  split; [lia|]. split; [lia|].
  split.
  - intros He. subst h. unfold hundredths.
    now replace (0 <=? e) with true by (symmetry; apply Z.leb_le; lia).
  - intros He. subst h. unfold hundredths.
    replace (0 <=? e) with false by (symmetry; apply Z.leb_gt; lia).
    apply round_half_even_div_spec; [lia|].
    apply Z.pow_pos_nonneg; lia.
Qed.

Section Calls.
Variable L : Libs.

(** X7. A click never loads anything from disk; it calls
    [transform], [predict] and [inverse_transform] at most once each, in
    this order, stopping at the first that does not return; and it sets
    a result variable only after the three calls were made. *)
Theorem click_calls_stages_in_order (app : App) :
  exists new rest,
    log (snd (predict_water_quality L app)) = (log app ++ new)%list /\
    (library_calls new ++ rest)%list
      = ["transform"; "predict"; "inverse_transform"] /\
    (set_keys new <> [] -> rest = []).
Proof.
  destruct app as [mo xo yo te de rv lg].
  match goal with
  | |- exists new rest, log (snd ?o) = _ /\ _ => pattern o
  end.
  apply wp_outcome. cbn [snd].
  unfold predict_water_quality, predict_body.
  explore;
    state_unfold; do 2 eexists;
    (split; [rewrite <- ?app_assoc; reflexivity|]);
    cbn [List.app library_calls set_keys];
    (split; [reflexivity|]);
    intros Hset; first [reflexivity | now contradiction Hset].
Qed.

End Calls.

(** * The further theorems on concrete runs *)

(** The sample libraries: what [__init__] logs. *)
Lemma init_success_state_witness :
  log (Demo.started Demo.libs) =
    [LoadModel "/opt/app/water_quality_model.h5";
     JoblibLoad "/opt/app/X_scaler.joblib";
     JoblibLoad "/opt/app/y_scaler.joblib"].
Proof.
  destruct (init_success_state Demo.libs (Demo.started Demo.libs) eq_refl)
    as (m & xs & ys & _ & _ & _ & H).
  rewrite H. reflexivity.
Defined.

Lemma reachable_state_is_initialised_witness :
  exists mdl xs ys ts ds vars,
    model Demo.sample = Some mdl /\ X_scaler Demo.sample = Some xs /\
    y_scaler Demo.sample = Some ys /\
    temp_entry Demo.sample = Some ts /\ date_entry Demo.sample = Some ds /\
    result_vars Demo.sample = Some vars /\
    is_Some (vars !! "NO3") /\ is_Some (vars !! "SO4") /\
    is_Some (vars !! "pH").
Proof.
  apply (reachable_state_is_initialised Demo.libs).
  apply reachable_run. apply reachable_init. reflexivity.
Defined.

(** A click on the form as it starts: the dialog is the fourth event,
    after the three loads. *)
Lemma click_on_fresh_form_witness :
  fst (predict_water_quality Demo.libs (Demo.started Demo.libs)) = Ok tt /\
  log (snd (predict_water_quality Demo.libs (Demo.started Demo.libs))) =
  [LoadModel "/opt/app/water_quality_model.h5";
   JoblibLoad "/opt/app/X_scaler.joblib";
   JoblibLoad "/opt/app/y_scaler.joblib";
   Showerror "Input Error" "Please enter valid temperature and date."].
Proof.
  rewrite (click_on_fresh_form Demo.libs (Demo.started Demo.libs) eq_refl).
  split; vm_compute; reflexivity.
Defined.

(** A model that fails at inference with an error that is no
    [ValueError]. *)
Lemma stage_failure_is_prediction_error_witness :
  shown_dialogs
    (drop (length (log (Demo.filled Demo.libs_failing_model "21.5" "2015/03")))
          (log (snd (predict_water_quality Demo.libs_failing_model
                       (Demo.filled Demo.libs_failing_model
                          "21.5" "2015/03"))))) =
  [("Prediction Error", "Graph execution error")].
Proof.
  assert (Hst : stage_raises
                  (Demo.filled Demo.libs_failing_model "21.5" "2015/03")
                  [input_row Demo.libs_failing_model
                     Demo.t21_5 Demo.march_2015]
                  (OtherError "InvalidArgumentError" "Graph execution error")
                  [Transform [input_row Demo.libs_failing_model
                                Demo.t21_5 Demo.march_2015];
                   Predict [input_row Demo.libs_failing_model
                              Demo.t21_5 Demo.march_2015]])
    by (apply (inference_raises _ _ Demo.identity_scaler _
                 Demo.failing_model); reflexivity).
  exact (proj2 (stage_failure_is_prediction_error Demo.libs_failing_model
                  (Demo.filled Demo.libs_failing_model "21.5" "2015/03")
                  "21.5" "2015/03" Demo.t21_5 Demo.march_2015
                  (OtherError "InvalidArgumentError" "Graph execution error")
                  _ eq_refl eq_refl eq_refl eq_refl Hst eq_refl)).
Defined.

(** A model with two outputs: nitrate is set, pH keeps its text. *)
Lemma short_output_outcome_witness :
  label (snd (predict_water_quality
                (Demo.libs_with (Ok Demo.short_model)
                                (Ok Demo.identity_scaler))
                (Demo.filled
                   (Demo.libs_with (Ok Demo.short_model)
                                   (Ok Demo.identity_scaler))
                   "21.5" "2015/03"))) "pH"
  = Some "pH Value: 0.00".
Proof.
  epose proof (short_output_outcome
                 (Demo.libs_with (Ok Demo.short_model)
                                 (Ok Demo.identity_scaler))
                 (Demo.filled
                    (Demo.libs_with (Ok Demo.short_model)
                                    (Ok Demo.identity_scaler))
                    "21.5" "2015/03")
                 "21.5" "2015/03" Demo.t21_5 Demo.march_2015
                 Demo.identity_scaler Demo.short_model Demo.identity_scaler
                 _ _ _ _
                 eq_refl eq_refl eq_refl eq_refl eq_refl eq_refl) as H.
  do 3 specialize (H ltac:(eexists; vm_compute; reflexivity)).
  specialize (H eq_refl eq_refl).
  do 4 specialize (H ltac:(vm_compute; reflexivity)).
  cbv zeta in H. destruct H as (_ & _ & _ & _ & H).
  rewrite H. vm_compute. reflexivity.
Defined.

Lemma strptime_accepts_exactly_witness :
  strptime "2015/3" = Some (mkDate 2015 3).
Proof.
  apply (proj2 (strptime_accepts_exactly "2015/3" (mkDate 2015 3) eq_refl)).
  exists ["2"; "0"; "1"; "5"]%char, ["3"%char].
  repeat split; try reflexivity; auto; cbn; lia.
Defined.

Lemma float_ignores_surrounding_space_witness :
  py_float (" " ++ "21.5" ++ " ") = py_float "21.5".
Proof.
  apply (float_ignores_surrounding_space " " "21.5" " "); reflexivity.
Defined.
